(** * Availability slot generator (getSlots / buildSlotsWithDateRanges)

    A shallow embedding of the slot generator of the booking application
    and the properties its specification states.  Line numbers refer to the
    module that exports [getSlots].

    Modelling conventions.
    - A JavaScript number that counts minutes is an integer [Z].
    - An instant is the number of milliseconds since the epoch, a [Z]; this is
      what [valueOf()] returns and what every comparison ([isBefore],
      [isAfter]) of the date library looks at.
    - A date object ([Dayjs]) is an instant together with the UTC offset (in
      minutes) it is displayed in.  A date object in UTC mode is written as
      its bare instant.
    - The slot collection is a JavaScript [Map] keyed by the ISO-8601 string of
      the instant.  [toISOString] and [dayjs.utc(string)] are inverse to each
      other on instants, so the key is modelled by the instant itself.  The map
      is an association list in insertion order; [set] on a key that is present
      replaces the value and keeps the position.
    - The emission loop is a [while] loop; it is modelled with fuel, [None]
      meaning that the fuel ran out before the loop condition became false.
    - The model computes on unbounded integers.  A JavaScript date is only
      valid within 8.64e15 milliseconds of the epoch; beyond that the code
      throws or does not return.  Statements about the slots of a run that
      returns are not affected; statements that a run returns carry the
      bounds [withinDateRange], inside which every date the code builds is
      valid and the model and the code agree.  Likewise a number of minutes
      is a whole number. *)

From Stdlib Require Import ZArith Lia List Ascii Sorting.Permutation Sorting.Sorted.
From stdpp Require Import base option list gmap strings pretty sorting.

Open Scope Z_scope.

(** ** The date library *)

Module Dayjs.

Definition MILLISECONDS_A_SECOND : Z := 1000.
Definition MILLISECONDS_A_MINUTE : Z := 60000.
Definition MILLISECONDS_A_HOUR : Z := 3600000.
Definition MILLISECONDS_A_DAY : Z := 86400000.

(** A date object: the instant and the offset of its display zone. *)
Record t : Type := mk { valueOf : Z; utcOffset : Z }.

(** [d.add(n, "minute")] and [d.subtract(n, "second")] on an instant. *)
Definition addMinutes (i n : Z) : Z := i + n * MILLISECONDS_A_MINUTE.
Definition subtractSeconds (i n : Z) : Z := i - n * MILLISECONDS_A_SECOND.

(** [d.minute()] of a date in UTC mode. *)
Definition utcMinute (i : Z) : Z := (i / MILLISECONDS_A_MINUTE) mod 60.

(** [d.startOf("hour")] of a date in UTC mode. *)
Definition startOfHour (i : Z) : Z := i - i mod MILLISECONDS_A_HOUR.

(** [d.minute(m)] of a date in UTC mode: seconds and milliseconds stay. *)
Definition setUtcMinute (i m : Z) : Z :=
  i - utcMinute i * MILLISECONDS_A_MINUTE + m * MILLISECONDS_A_MINUTE.

(** The wall clock of a date object, as an instant of a UTC clock. *)
Definition wallClock (d : t) : Z := valueOf d + utcOffset d * MILLISECONDS_A_MINUTE.

(** [d.minute()] of a date object in its own zone. *)
Definition minute (d : t) : Z := utcMinute (wallClock d).

(** Gregorian calendar date of a day number (days since 1970-01-01). *)
Definition civilFromDays (days : Z) : Z * Z * Z :=
  let z := days + 719468 in
  let era := z / 146097 in
  let doe := z - era * 146097 in
  let yoe := (doe - doe / 1460 + doe / 36524 - doe / 146096) / 365 in
  let doy := doe - (365 * yoe + yoe / 4 - yoe / 100) in
  let mp := (5 * doy + 2) / 153 in
  let d := doy - (153 * mp + 2) / 5 + 1 in
  let m := if mp <? 10 then mp + 3 else mp - 9 in
  let y := yoe + era * 400 + (if m <=? 2 then 1 else 0) in
  (y, m, d).

(** [String(n).padStart(width, "0")]. *)
Fixpoint zeros (n : nat) : string :=
  match n with
  | O => EmptyString
  | S n' => String "0"%char (zeros n')
  end.

Definition padStart (width : nat) (s : string) : string :=
  String.append (zeros (width - String.length s)) s.

(** [d.format("YYYY-MM-DD")] of a date object in its own zone. *)
Definition formatYYYYMMDD (d : t) : string :=
  let '(y, m, dd) := civilFromDays (wallClock d / MILLISECONDS_A_DAY) in
  String.append (padStart 4 (pretty y))
    (String.append "-" (String.append (padStart 2 (pretty m))
       (String.append "-" (padStart 2 (pretty dd))))).

End Dayjs.

Abbreviation Dayjs := Dayjs.t.

(** ** Data model *)

(** [DateRange] of ./date-ranges. [end] is a keyword, hence [end_]. *)
Record DateRange : Type := { start : Dayjs; end_ : Dayjs }.

(** The slot collection: an insertion-ordered map keyed by instant. *)
Module SlotMap.
Section Def.
Context {V : Type}.

Fixpoint set (k : Z) (v : V) (m : list (Z * V)) : list (Z * V) :=
  match m with
  | [] => [(k, v)]
  | (k', v') :: m' =>
      if k =? k' then (k, v) :: m' else (k', v') :: set k v m'
  end.

Definition keys (m : list (Z * V)) : list Z := map fst m.
Definition values (m : list (Z * V)) : list V := map snd m.
End Def.
End SlotMap.

(** JavaScript [%] is the truncating remainder. *)
Definition jsRem (a b : Z) : Z := Z.rem a b.

(** [Math.ceil(a / b)] on integers, [b] not zero. *)
Definition mathCeilDiv (a b : Z) : Z := - ((- a) / b).

Definition minimumOfOne (input : Z) : Z := if input <? 1 then 1 else input.

Definition intervalsWithDefinedStartTimes : list Z := [60; 30; 20; 15; 10; 5].

(** The [for] loop with [break] of lines 58-63: the first element of the
    list that divides the frequency replaces the initial interval. *)
Fixpoint firstDividing (frequency : Z) (candidates : list Z) (interval : Z) : Z :=
  match candidates with
  | [] => interval
  | c :: rest =>
      if jsRem frequency c =? 0 then c else firstDividing frequency rest interval
  end.

(** [Number(process.env.NEXT_PUBLIC_AVAILABILITY_SCHEDULE_INTERVAL) || 1]:
    [None] is an unset or non-numeric variable (NaN), and 0 is falsy. *)
Definition defaultInterval (env : option Z) : Z :=
  match env with
  | Some n => if n =? 0 then 1 else n
  | None => 1
  end.

Definition selectInterval (env : option Z) (frequency : Z) : Z :=
  firstDividing frequency intervalsWithDefinedStartTimes (defaultInterval env).


(** [offsetStart = offsetStart ? minimumOfOne(offsetStart) : 0]: an absent
    offset and the offset 0 are falsy. *)
Definition normalizeOffsetStart (offsetStart : option Z) : Z :=
  match offsetStart with
  | Some o => if o =? 0 then 0 else minimumOfOne o
  | None => 0
  end.

(** Stable sort of the ranges by start instant, the result of
    [dateRanges.sort((a, b) => a.start.valueOf() - b.start.valueOf())]. *)
Fixpoint insertByStart (r : DateRange) (l : list DateRange) : list DateRange :=
  match l with
  | [] => [r]
  | r' :: l' =>
      if Dayjs.valueOf (start r') <? Dayjs.valueOf (start r)
      then r' :: insertByStart r l'
      else r :: r' :: l'
  end.

Fixpoint sortByStart (l : list DateRange) : list DateRange :=
  match l with
  | [] => []
  | r :: l' => insertByStart r (sortByStart l')
  end.

(** The order the comparator of the sort induces. *)
Definition startsBefore (a b : DateRange) : Prop :=
  Dayjs.valueOf (start a) <= Dayjs.valueOf (start b).

(** A string is truthy when it is not empty. *)
Definition truthy (s : string) : bool := negb (String.eqb s EmptyString).

(** [...(x && { x })] for a string field: spread when present and truthy. *)
Definition spreadString (x : option string) : option string :=
  match x with
  | Some s => if truthy s then Some s else None
  | None => None
  end.

Section SlotGenerator.

(** [IFromUser] and [IToUser] are declared in getUserAvailability; the
    generator only copies them. *)
Context {IFromUser IToUser : Type}.

(** The time-zone database of the date library: the UTC offset, in minutes,
    of a named zone at an instant. *)
Variable utcOffsetOf : string -> Z -> Z.

(** A value of [IOutOfOfficeData]; [None] is an absent or null field. *)
Record OutOfOfficeEntry : Type := {
  entry_toUser : option IToUser;
  entry_fromUser : option IFromUser;
  entry_reason : option string;
  entry_emoji : option string
}.

Record SlotData : Type := {
  time : Dayjs;
  userIds : option (list Z);
  away : option bool;
  fromUser : option IFromUser;
  toUser : option IToUser;
  reason : option string;
  emoji : option string
}.

(** The objects of the caller that the function receives by reference. *)
Record CallerObjects : Type := {
  dateRanges : list DateRange;
  datesOutOfOffice : option (gmap string OutOfOfficeEntry)
}.

(** [i.tz(timeZone)]: the same instant, shown in the zone. *)
Definition tz (timeZone : string) (i : Z) : Dayjs :=
  Dayjs.mk i (utcOffsetOf timeZone i).

(** Lines 138-154: the slot object built for a start time. *)
Definition makeSlotData (ooo : option (gmap string OutOfOfficeEntry))
    (dateYYYYMMDD : string) (slotStartTime : Dayjs) : SlotData :=
  match ooo ≫= (fun m => m !! dateYYYYMMDD) with
  | Some dateOutOfOfficeExists =>
      {| time := slotStartTime; userIds := None; away := Some true;
         fromUser := entry_fromUser dateOutOfOfficeExists;
         toUser := entry_toUser dateOutOfOfficeExists;
         reason := spreadString (entry_reason dateOutOfOfficeExists);
         emoji := spreadString (entry_emoji dateOutOfOfficeExists) |}
  | None =>
      {| time := slotStartTime; userIds := None; away := None;
         fromUser := None; toUser := None; reason := None; emoji := None |}
  end.

Section PerRange.

(** The values fixed before the ranges are visited (lines 49-79). *)
Variables (frequency eventLength offsetStart interval : Z).
Variable startTimeWithMinNotice : Z.
Variable shouldApplyHalfHourOffset : bool.
Variable timeZone : string.
Variable ooo : option (gmap string OutOfOfficeEntry).

(** Lines 89-94. *)
Definition roundUpToInterval (slotStartTimeUTC : Z) : Z :=
  if negb (jsRem (Dayjs.utcMinute slotStartTimeUTC) interval =? 0)
  then Dayjs.addMinutes (Dayjs.startOfHour slotStartTimeUTC)
         (mathCeilDiv (Dayjs.utcMinute slotStartTimeUTC) interval * interval)
  else slotStartTimeUTC.

(** Lines 98-103 and 160-165. *)
Definition applyHalfHourOffset (slotStartTimeUTC : Z) : Z :=
  if shouldApplyHalfHourOffset
  then if negb (Dayjs.utcMinute slotStartTimeUTC =? 30)
       then Dayjs.setUtcMinute slotStartTimeUTC 30
       else slotStartTimeUTC
  else slotStartTimeUTC.

(** Lines 85-103: the first candidate of a range. *)
Definition initialSlotStart (range : DateRange) : Z :=
  let slotStartTimeUTC :=
    if startTimeWithMinNotice <? Dayjs.valueOf (start range)
    then Dayjs.valueOf (start range)
    else startTimeWithMinNotice in
  let slotStartTimeUTC := roundUpToInterval slotStartTimeUTC in
  let slotStartTimeUTC := Dayjs.addMinutes slotStartTimeUTC offsetStart in
  applyHalfHourOffset slotStartTimeUTC.

(** Lines 113-129: one turn of the scan over the keys placed so far. *)
Definition adjustToExisting (range : DateRange)
    (slotStartTime : Z) (utcResultValue : Z) : Z :=
  if (utcResultValue <? slotStartTime)
     && (slotStartTime <? Dayjs.addMinutes utcResultValue (frequency + offsetStart))
  then if negb (utcResultValue <? Dayjs.valueOf (start range))
       then utcResultValue
       else Dayjs.addMinutes utcResultValue (frequency + offsetStart)
  else slotStartTime.

(** Lines 109-131. *)
Definition avoidOverlap (range : DateRange) (keys : list Z)
    (slotStartTime : Z) : Z :=
  fold_left (adjustToExisting range) keys slotStartTime.

(** The condition of the [while] of line 135. *)
Definition fitsInRange (range : DateRange) (currentSlotUTC : Z) : bool :=
  negb (Dayjs.valueOf (end_ range)
        <? Dayjs.subtractSeconds (Dayjs.addMinutes currentSlotUTC eventLength) 1).

(** Lines 158-165: the next candidate. *)
Definition nextSlot (currentSlotUTC : Z) : Z :=
  applyHalfHourOffset (Dayjs.addMinutes currentSlotUTC (frequency + offsetStart)).

(** Lines 135-166. *)
Fixpoint emitSlots (fuel : nat) (range : DateRange) (dateYYYYMMDD : string)
    (slots : list (Z * SlotData)) (currentSlotUTC : Z)
    : option (list (Z * SlotData)) :=
  match fuel with
  | O => None
  | S fuel' =>
      if fitsInRange range currentSlotUTC then
        let slotStartTime := tz timeZone currentSlotUTC in
        let slotData := makeSlotData ooo dateYYYYMMDD slotStartTime in
        emitSlots fuel' range dateYYYYMMDD
          (SlotMap.set (Dayjs.valueOf (time slotData)) slotData slots)
          (nextSlot currentSlotUTC)
      else Some slots
  end.

(** The start instants the loop of a range emits, in order. *)
Fixpoint emittedTimes (fuel : nat) (range : DateRange) (currentSlotUTC : Z)
    : option (list Z) :=
  match fuel with
  | O => None
  | S fuel' =>
      if fitsInRange range currentSlotUTC then
        match emittedTimes fuel' range (nextSlot currentSlotUTC) with
        | Some l => Some (currentSlotUTC :: l)
        | None => None
        end
      else Some []
  end.

(** The first instant handed to the loop of a range (lines 83-133). *)
Definition firstSlot (slots : list (Z * SlotData)) (range : DateRange) : Z :=
  avoidOverlap range (SlotMap.keys slots) (initialSlotStart range).

(** The body of [orderedDateRanges.forEach] (lines 82-167). *)
Definition processRange (fuel : nat) (slots : list (Z * SlotData))
    (range : DateRange) : option (list (Z * SlotData)) :=
  let dateYYYYMMDD := Dayjs.formatYYYYMMDD (start range) in
  emitSlots fuel range dateYYYYMMDD slots (firstSlot slots range).

Fixpoint forEachRange (fuel : nat) (slots : list (Z * SlotData))
    (ranges : list DateRange) : option (list (Z * SlotData)) :=
  match ranges with
  | [] => Some slots
  | range :: rest =>
      match processRange fuel slots range with
      | Some slots' => forEachRange fuel slots' rest
      | None => None
      end
  end.

(** The instants the loop of each range emitted, in the order in which
    [forEach] visits the ranges: a record of what [forEachRange] does. *)
Fixpoint emissionsOf (fuel : nat) (slots : list (Z * SlotData))
    (ranges : list DateRange) : option (list (DateRange * list Z)) :=
  match ranges with
  | [] => Some []
  | range :: rest =>
      match emittedTimes fuel range (firstSlot slots range),
            processRange fuel slots range with
      | Some l, Some slots' =>
          match emissionsOf fuel slots' rest with
          | Some trace => Some ((range, l) :: trace)
          | None => None
          end
      | _, _ => None
      end
  end.

End PerRange.

(** Lines 67-79. *)
Definition isHalfHourTimezone (tzOffsetMinutes : Z) : bool :=
  negb (jsRem tzOffsetMinutes 60 =? 0).

Definition isISTTimezone (timeZone : string) (tzOffsetMinutes : Z) : bool :=
  String.eqb timeZone "Asia/Kolkata" || (tzOffsetMinutes =? 330).

Definition hasHalfHourStartTimes (ranges : list DateRange) : bool :=
  existsb (fun range => Dayjs.minute (start range) =? 30) ranges.

Definition shouldApplyHalfHourOffset (now : Z) (timeZone : string)
    (ranges : list DateRange) (interval : Z) : bool :=
  let tzOffsetMinutes := utcOffsetOf timeZone now in
  (isISTTimezone timeZone tzOffsetMinutes
   || (isHalfHourTimezone tzOffsetMinutes && hasHalfHourStartTimes ranges))
  && (interval =? 60).

(** [buildSlotsWithDateRanges].  [now] is the clock, [env] the environment
    variable; the result is the returned array and the caller's objects as
    the call leaves them ([sort] works in place). *)
Definition buildSlotsWithDateRanges (fuel : nat) (now : Z) (env : option Z)
    (caller : CallerObjects) (frequency eventLength : Z) (timeZone : string)
    (minimumBookingNotice : Z) (offsetStart : option Z)
    : option (list SlotData * CallerObjects) :=
  let frequency := minimumOfOne frequency in
  let eventLength := minimumOfOne eventLength in
  let offsetStart := normalizeOffsetStart offsetStart in
  let interval := selectInterval env frequency in
  let startTimeWithMinNotice := Dayjs.addMinutes now minimumBookingNotice in
  let shouldApply :=
    shouldApplyHalfHourOffset now timeZone (dateRanges caller) interval in
  let orderedDateRanges := sortByStart (dateRanges caller) in
  let caller' := {| dateRanges := orderedDateRanges;
                    datesOutOfOffice := datesOutOfOffice caller |} in
  match forEachRange frequency eventLength offsetStart interval
          startTimeWithMinNotice shouldApply timeZone
          (datesOutOfOffice caller) fuel [] orderedDateRanges with
  | Some slots => Some (SlotMap.values slots, caller')
  | None => None
  end.

(** [getTimeZone] of ./dayjs reads the zone name stored in the date. *)
Variable getTimeZone : Dayjs -> string.

(** [getSlots]: the default of the optional [offsetStart] is 0. *)
Definition getSlots (fuel : nat) (now : Z) (env : option Z)
    (inviteeDate : Dayjs) (frequency minimumBookingNotice : Z)
    (caller : CallerObjects) (eventLength : Z) (offsetStart : option Z)
    : option (list SlotData * CallerObjects) :=
  buildSlotsWithDateRanges fuel now env caller frequency eventLength
    (getTimeZone inviteeDate) minimumBookingNotice
    (Some (default 0 offsetStart)).

End SlotGenerator.

(** ** Vocabulary of the specification *)

(** A slot of [eventLength] minutes starting at [i] lies inside the range,
    the end being checked a second early as the loop does. *)
Definition slotWithin (eventLength : Z) (range : DateRange) (i : Z) : Prop :=
  Dayjs.valueOf (start range) <= i
  /\ i + eventLength * 60000 - 1000 <= Dayjs.valueOf (end_ range).

(** The half-hour correction is active, in the words of the specification:
    the zone is that of India (by name or by its offset of 330 minutes), or
    its offset is not a whole number of hours and some range starts on
    minute 30; and the selected granularity is 60. *)
Definition halfHourCorrectionActive (utcOffsetOf : string -> Z -> Z) (now : Z)
    (timeZone : string) (ranges : list DateRange) (interval : Z) : Prop :=
  (timeZone = "Asia/Kolkata"%string
   \/ utcOffsetOf timeZone now = 330
   \/ (Z.rem (utcOffsetOf timeZone now) 60 <> 0
       /\ exists range, range ∈ ranges /\ Dayjs.minute (start range) = 30))
  /\ interval = 60.

(** In a record of emissions, [range] is the last range whose loop emitted
    the instant [t]. *)
Definition lastEmitter (trace : list (DateRange * list Z)) (t : Z)
    (range : DateRange) : Prop :=
  exists pre l post,
    trace = pre ++ (range, l) :: post /\ t ∈ l
    /\ forall e, e ∈ post -> t ∉ e.2.

(** Bounds that keep every date the code builds inside the range of a
    JavaScript date (8.64e15 milliseconds on either side of the epoch): the
    instants handed over lie within 8e15 milliseconds of the epoch and the
    numbers of minutes within a thousand million. *)
Definition validInstant (i : Z) : Prop :=
  - 8000000000000000 <= i <= 8000000000000000.

Definition modestMinutes (n : Z) : Prop := - 1000000000 <= n <= 1000000000.

Definition withinDateRange (now : Z) (env : option Z)
    (ranges : list DateRange) (frequency eventLength : Z)
    (minimumBookingNotice : Z) (offsetStart : option Z) : Prop :=
  validInstant now
  /\ Forall (fun range => validInstant (Dayjs.valueOf (start range))
                          /\ validInstant (Dayjs.valueOf (end_ range))) ranges
  /\ modestMinutes frequency /\ modestMinutes eventLength
  /\ modestMinutes minimumBookingNotice
  /\ modestMinutes (default 0 offsetStart)
  /\ modestMinutes (defaultInterval env).

(** A range whose end precedes its start. *)
Definition malformed (range : DateRange) : Prop :=
  Dayjs.valueOf (end_ range) < Dayjs.valueOf (start range).

(** The out-of-office fields of a slot, given the entry found for it; this
    is what lines 143-154 build. *)
Definition taggedWith {IFromUser IToUser : Type}
    (entry : option (@OutOfOfficeEntry IFromUser IToUser))
    (s : @SlotData IFromUser IToUser) : Prop :=
  match entry with
  | Some e =>
      away s = Some true /\ fromUser s = entry_fromUser e
      /\ toUser s = entry_toUser e
      /\ reason s = spreadString (entry_reason e)
      /\ emoji s = spreadString (entry_emoji e)
  | None =>
      away s = None /\ fromUser s = None /\ toUser s = None
      /\ reason s = None /\ emoji s = None
  end.

(** The tagging rule in the words of the specification: the entry is looked
    up under the local calendar date of the slot itself, and the slot
    carries the fields that are defined in it. *)
Definition taggedByOwnDate {IFromUser IToUser : Type}
    (ooo : option (gmap string (@OutOfOfficeEntry IFromUser IToUser)))
    (s : @SlotData IFromUser IToUser) : Prop :=
  match ooo ≫= (fun m => m !! Dayjs.formatYYYYMMDD (time s)) with
  | Some e =>
      away s = Some true /\ fromUser s = entry_fromUser e
      /\ toUser s = entry_toUser e
      /\ reason s = entry_reason e /\ emoji s = entry_emoji e
  | None =>
      away s = None /\ fromUser s = None /\ toUser s = None
      /\ reason s = None /\ emoji s = None
  end.

(** An entry of the slot map was written by the loop of one of the ranges:
    it carries the slot object that loop builds, and its instant has the
    property [P] with respect to that range. *)
Definition writtenBy {IFromUser IToUser : Type}
    (utcOffsetOf : string -> Z -> Z) (timeZone : string)
    (ooo : option (gmap string (@OutOfOfficeEntry IFromUser IToUser)))
    (ranges : list DateRange) (P : DateRange -> Z -> Prop)
    (e : Z * @SlotData IFromUser IToUser) : Prop :=
  exists range, range ∈ ranges /\ P range e.1
    /\ e.2 = makeSlotData ooo (Dayjs.formatYYYYMMDD (start range))
               (tz utcOffsetOf timeZone e.1).

(** ** Concrete inputs for the worked examples *)

Module Sample.

(** An excerpt of the zone database: India is at UTC+5:30 all year. *)
Definition zones (timeZone : string) (i : Z) : Z :=
  if String.eqb timeZone "Asia/Kolkata" then 330 else 0.

(** 2024-06-03T00:00:00Z, and a time of that day. *)
Definition day0 : Z := 1717372800000.
Definition at_ (hour minute : Z) : Z := day0 + hour * 3600000 + minute * 60000.

Definition utcRange (a b : Z) : DateRange :=
  {| start := Dayjs.mk a 0; end_ := Dayjs.mk b 0 |}.

Definition indiaRange (a b : Z) : DateRange :=
  {| start := Dayjs.mk a 330; end_ := Dayjs.mk b 330 |}.

Definition caller (ranges : list DateRange)
    (ooo : option (gmap string (@OutOfOfficeEntry unit unit)))
    : @CallerObjects unit unit :=
  {| dateRanges := ranges; datesOutOfOffice := ooo |}.

Definition startTimes (out : list (@SlotData unit unit)) : list Z :=
  map (fun s => Dayjs.valueOf (time s)) out.

Definition localMinutes (out : list (@SlotData unit unit)) : list Z :=
  map (fun s => Dayjs.minute (time s)) out.

Definition pto : @OutOfOfficeEntry unit unit :=
  {| entry_toUser := None; entry_fromUser := None;
     entry_reason := Some "PTO"%string; entry_emoji := None |}.

(** A slot without out-of-office fields. *)
Definition plainSlot (t : Dayjs) : @SlotData unit unit :=
  {| time := t; userIds := None; away := None; fromUser := None;
     toUser := None; reason := None; emoji := None |}.

Definition startTimesOf
    (r : option (list (@SlotData unit unit) * @CallerObjects unit unit))
    : option (list Z) :=
  match r with Some (out, _) => Some (startTimes out) | None => None end.

Definition localMinutesOf
    (r : option (list (@SlotData unit unit) * @CallerObjects unit unit))
    : option (list Z) :=
  match r with Some (out, _) => Some (localMinutes out) | None => None end.

(** A morning in UTC, 09:00 to 10:30, with half-hour slots. *)
Definition morning : DateRange := utcRange (at_ 9 0) (at_ 10 30).
Definition morningOut : list (@SlotData unit unit) :=
  [plainSlot (Dayjs.mk (at_ 9 0) 0); plainSlot (Dayjs.mk (at_ 9 30) 0);
   plainSlot (Dayjs.mk (at_ 10 0) 0)].

(** Two ranges handed over in the wrong order. *)
Definition afternoon : DateRange := utcRange (at_ 14 0) (at_ 15 0).
Definition afternoonOut : list (@SlotData unit unit) :=
  [plainSlot (Dayjs.mk (at_ 14 0) 0); plainSlot (Dayjs.mk (at_ 14 30) 0)].

(** 09:00 to 12:00 in India, that is 03:30 to 06:30 UTC. *)
Definition indiaMorning : DateRange := indiaRange (at_ 3 30) (at_ 6 30).
Definition indiaMorningOut : list (@SlotData unit unit) :=
  [plainSlot (Dayjs.mk (at_ 4 30) 330); plainSlot (Dayjs.mk (at_ 5 30) 330)].

(** 15:30 to 20:30 in India, that is 10:00 to 15:00 UTC. *)
Definition indiaAfternoon : DateRange := indiaRange (at_ 10 0) (at_ 15 0).

(** A range in UTC that crosses midnight, and an entry for the second
    day only. *)
Definition lateEvening : DateRange := utcRange (at_ 23 0) (at_ 26 0).
Definition juneFourth : gmap string (@OutOfOfficeEntry unit unit) :=
  {[ "2024-06-04"%string := pto ]}.
Definition lateEveningOut : list (@SlotData unit unit) :=
  [plainSlot (Dayjs.mk (at_ 23 0) 0); plainSlot (Dayjs.mk (at_ 24 0) 0);
   plainSlot (Dayjs.mk (at_ 25 0) 0)].

(** A range whose end precedes its start. *)
Definition backwards : DateRange := utcRange (at_ 18 0) (at_ 17 0).

End Sample.

(** * Properties *)

(** ** Arithmetic of the date library *)

Ltac unfold_dayjs :=
  unfold Dayjs.setUtcMinute, Dayjs.utcMinute, Dayjs.startOfHour,
    Dayjs.addMinutes, Dayjs.subtractSeconds, Dayjs.MILLISECONDS_A_MINUTE,
    Dayjs.MILLISECONDS_A_HOUR, Dayjs.MILLISECONDS_A_SECOND in *.

Ltac dayjs_arith := unfold_dayjs; Z.div_mod_to_equations; lia.

Lemma utcMinute_bounds (i : Z) : 0 <= Dayjs.utcMinute i < 60.
Proof. dayjs_arith. Qed.

Lemma setUtcMinute_shift (i m : Z) :
  Dayjs.setUtcMinute i m = i + (m - Dayjs.utcMinute i) * 60000.
Proof. unfold_dayjs. lia. Qed.

Lemma utcMinute_setUtcMinute (i m : Z) :
  0 <= m < 60 -> Dayjs.utcMinute (Dayjs.setUtcMinute i m) = m.
Proof. intros Hm. dayjs_arith. Qed.

Lemma utcMinute_addMinutes (i n : Z) :
  Dayjs.utcMinute (Dayjs.addMinutes i n) = (Dayjs.utcMinute i + n) mod 60.
Proof. dayjs_arith. Qed.

Lemma startOfHour_split (i : Z) :
  i = Dayjs.startOfHour i + Dayjs.utcMinute i * 60000 + i mod 60000.
Proof. dayjs_arith. Qed.

Lemma utcMinute_startOfHour_add (i n : Z) :
  Dayjs.utcMinute (Dayjs.addMinutes (Dayjs.startOfHour i) n) = n mod 60.
Proof. dayjs_arith. Qed.

(** ** Normalisation of the scalar parameters *)

Lemma minimumOfOne_max (input : Z) : minimumOfOne input = Z.max input 1.
Proof. unfold minimumOfOne. destruct (Z.ltb_spec input 1); lia. Qed.

Lemma minimumOfOne_ge_1 (input : Z) : 1 <= minimumOfOne input.
Proof. rewrite minimumOfOne_max. lia. Qed.

Lemma minimumOfOne_idem (input : Z) :
  minimumOfOne (minimumOfOne input) = minimumOfOne input.
Proof. rewrite !minimumOfOne_max. lia. Qed.

Lemma normalizeOffsetStart_nonneg (offsetStart : option Z) :
  0 <= normalizeOffsetStart offsetStart.
Proof.
  destruct offsetStart as [o|]; simpl; [|lia].
  destruct (Z.eqb_spec o 0); [lia|]. pose proof (minimumOfOne_ge_1 o). lia.
Qed.

Lemma normalizeOffsetStart_idem (offsetStart : option Z) :
  normalizeOffsetStart (Some (normalizeOffsetStart offsetStart))
  = normalizeOffsetStart offsetStart.
Proof.
  destruct offsetStart as [o|]; simpl; [|reflexivity].
  destruct (Z.eqb_spec o 0) as [->|Ho]; [reflexivity|].
  pose proof (minimumOfOne_ge_1 o) as H1.
  destruct (Z.eqb_spec (minimumOfOne o) 0); [lia|]. apply minimumOfOne_idem.
Qed.

(** ** Selection of the step interval *)

Lemma jsRem_divide (a b : Z) : b <> 0 -> (jsRem a b = 0 <-> (b | a)).
Proof. intros Hb. unfold jsRem. apply Z.rem_divide, Hb. Qed.

Lemma firstDividing_spec (frequency : Z) (candidates : list Z) (fallback : Z) :
  Forall (fun c => c <> 0) candidates ->
  (exists pre c post,
      candidates = pre ++ c :: post /\ (c | frequency) /\
      Forall (fun d => ~ (d | frequency)) pre /\
      firstDividing frequency candidates fallback = c)
  \/ (Forall (fun d => ~ (d | frequency)) candidates /\
      firstDividing frequency candidates fallback = fallback).
Proof.
  induction candidates as [|c rest IH]; intros Hnz.
  - right. split; [constructor | reflexivity].
  - inversion Hnz as [|? ? Hc Hrest]; subst. simpl.
    destruct (Z.eqb_spec (jsRem frequency c) 0) as [Hdiv|Hndiv].
    + left. exists [], c, rest. repeat split; try constructor.
      apply jsRem_divide; assumption.
    + assert (~ (c | frequency)) as Hn
          by (intros Hd; apply Hndiv, jsRem_divide; assumption).
      destruct (IH Hrest) as [(pre & d & post & -> & Hd & Hpre & Heq)|[Hall Heq]].
      * left. exists (c :: pre), d, post. repeat split; auto.
      * right. split; [constructor; assumption | assumption].
Qed.

Lemma intervals_nonzero : Forall (fun c => c <> 0) intervalsWithDefinedStartTimes.
Proof. unfold intervalsWithDefinedStartTimes. repeat constructor; lia. Qed.

Lemma defaultInterval_nonzero (env : option Z) : defaultInterval env <> 0.
Proof.
  destruct env as [n|]; simpl; [|lia]. destruct (Z.eqb_spec n 0); lia.
Qed.

Lemma selectInterval_nonzero (env : option Z) (frequency : Z) :
  selectInterval env frequency <> 0.
Proof.
  unfold selectInterval.
  destruct (firstDividing_spec frequency intervalsWithDefinedStartTimes
              (defaultInterval env) intervals_nonzero)
    as [(pre & c & post & Hl & _ & _ & ->)|[_ ->]].
  - pose proof intervals_nonzero as Hnz. rewrite Hl in Hnz.
    apply Forall_app in Hnz as [_ Hnz]. inversion Hnz; assumption.
  - apply defaultInterval_nonzero.
Qed.

(** If the selected interval is 60, either 60 divides the frequency or the
    interval is the configured fallback. *)
Lemma selectInterval_60 (env : option Z) (frequency : Z) :
  selectInterval env frequency = 60 ->
  (60 | frequency) \/ defaultInterval env = 60.
Proof.
  unfold selectInterval, intervalsWithDefinedStartTimes. simpl.
  repeat match goal with
         | |- context [jsRem ?a ?b =? 0] =>
             destruct (Z.eqb_spec (jsRem a b) 0) as [?H|?H]
         end; intros Heq; try discriminate; auto.
  left. apply jsRem_divide; [lia | assumption].
Qed.

(** C4: the selected interval is the first element of [60; 30; 20; 15; 10; 5]
    that divides the clamped frequency, and the configured fallback when none
    does; 45 selects 15 and 37 the fallback.  The fallback is the configured
    number itself, and 1 when nothing or 0 is configured. *)
Theorem C4_interval_selection (env : option Z) (frequency : Z) :
  ((exists pre c post,
       intervalsWithDefinedStartTimes = pre ++ c :: post /\
       (c | minimumOfOne frequency) /\
       Forall (fun d => ~ (d | minimumOfOne frequency)) pre /\
       selectInterval env (minimumOfOne frequency) = c)
   \/ (Forall (fun d => ~ (d | minimumOfOne frequency))
         intervalsWithDefinedStartTimes /\
       selectInterval env (minimumOfOne frequency) = defaultInterval env))
  /\ intervalsWithDefinedStartTimes = [60; 30; 20; 15; 10; 5]
  /\ defaultInterval None = 1
  /\ selectInterval env (minimumOfOne 45) = 15
  /\ selectInterval env (minimumOfOne 37) = defaultInterval env
  /\ defaultInterval (Some 0) = 1
  /\ (forall n, n <> 0 -> defaultInterval (Some n) = n).
Proof.
  split; [|repeat split].
  - unfold selectInterval. apply firstDividing_spec, intervals_nonzero.
  - intros n Hn. simpl. destruct (Z.eqb_spec n 0); [contradiction|reflexivity].
Qed.

(** ** The candidates of one range *)

Lemma mathCeilDiv_ge (m i : Z) :
  0 < i -> Z.rem m i <> 0 -> m + 1 <= mathCeilDiv m i * i.
Proof.
  intros Hi Hrem. unfold mathCeilDiv.
  pose proof (Z.div_mod (- m) i ltac:(lia)) as Hdm.
  pose proof (Z.mod_pos_bound (- m) i Hi) as Hr.
  assert ((- m) mod i <> 0) as Hr0.
  { intros H0. apply Hrem. apply Z.rem_divide; [lia|].
    exists (- ((- m) / i)). rewrite H0 in Hdm. lia. }
  replace (- (- m / i) * i) with (m + (- m) mod i) by lia. lia.
Qed.

Lemma roundUpToInterval_ge (interval s : Z) :
  0 < interval -> s <= roundUpToInterval interval s.
Proof.
  intros Hi. unfold roundUpToInterval, jsRem.
  destruct (Z.eqb_spec (Z.rem (Dayjs.utcMinute s) interval) 0) as [|Hrem];
    simpl; [lia|].
  pose proof (mathCeilDiv_ge _ _ Hi Hrem) as Hceil.
  pose proof (startOfHour_split s) as Hs.
  pose proof (Z.mod_pos_bound s 60000 ltac:(lia)) as Hms.
  unfold Dayjs.addMinutes, Dayjs.MILLISECONDS_A_MINUTE. lia.
Qed.

Lemma roundUpToInterval_60_minute (s : Z) :
  Dayjs.utcMinute (roundUpToInterval 60 s) = 0.
Proof.
  pose proof (utcMinute_bounds s) as Hm.
  unfold roundUpToInterval, jsRem.
  rewrite Z.rem_small by lia.
  destruct (Z.eqb_spec (Dayjs.utcMinute s) 0) as [H0|Hne]; simpl; [assumption|].
  rewrite utcMinute_startOfHour_add.
  assert (mathCeilDiv (Dayjs.utcMinute s) 60 = 1) as ->
      by (unfold mathCeilDiv; Z.div_mod_to_equations; lia).
  reflexivity.
Qed.

Lemma applyHalfHourOffset_shift (b : bool) (s : Z) :
  applyHalfHourOffset b s
  = if b then s + (30 - Dayjs.utcMinute s) * 60000 else s.
Proof.
  unfold applyHalfHourOffset. destruct b; [|reflexivity].
  destruct (Z.eqb_spec (Dayjs.utcMinute s) 30) as [H30|Hne]; simpl.
  - rewrite H30. lia.
  - apply setUtcMinute_shift.
Qed.

Lemma applyHalfHourOffset_minute (s : Z) :
  Dayjs.utcMinute (applyHalfHourOffset true s) = 30.
Proof.
  unfold applyHalfHourOffset.
  destruct (Z.eqb_spec (Dayjs.utcMinute s) 30) as [H30|Hne]; simpl.
  - assumption.
  - apply utcMinute_setUtcMinute. lia.
Qed.

Lemma applyHalfHourOffset_bounds (b : bool) (s : Z) :
  s - 29 * 60000 <= applyHalfHourOffset b s <= s + 30 * 60000.
Proof.
  rewrite applyHalfHourOffset_shift. pose proof (utcMinute_bounds s).
  destruct b; lia.
Qed.

Section PerRangeFacts.

Context {IFromUser IToUser : Type}.
Variable utcOffsetOf : string -> Z -> Z.
Variables (frequency eventLength offsetStart interval : Z).
Variable startTimeWithMinNotice : Z.
Variable shouldApply : bool.
Variable timeZone : string.
Variable ooo : option (gmap string (@OutOfOfficeEntry IFromUser IToUser)).

(** What the normalisation of lines 49-51 guarantees. *)
Hypothesis frequency_ge_1 : 1 <= frequency.
Hypothesis eventLength_ge_1 : 1 <= eventLength.
Hypothesis offsetStart_nonneg : 0 <= offsetStart.

Local Abbreviation step := (frequency + offsetStart).
Local Abbreviation slot_map := (list (Z * @SlotData IFromUser IToUser)).

Lemma initialSlotStart_minute (range : DateRange) :
  Dayjs.utcMinute
    (initialSlotStart offsetStart interval startTimeWithMinNotice true range)
  = 30.
Proof. unfold initialSlotStart. apply applyHalfHourOffset_minute. Qed.

Lemma initialSlotStart_ge (range : DateRange) :
  0 < interval ->
  (shouldApply = true -> interval = 60) ->
  Z.max (Dayjs.valueOf (start range)) startTimeWithMinNotice
  <= initialSlotStart offsetStart interval startTimeWithMinNotice
       shouldApply range.
Proof.
  intros Hi H60. unfold initialSlotStart.
  set (s0 := if startTimeWithMinNotice <? Dayjs.valueOf (start range)
             then Dayjs.valueOf (start range) else startTimeWithMinNotice).
  assert (Z.max (Dayjs.valueOf (start range)) startTimeWithMinNotice <= s0)
    as Hs0 by (subst s0; destruct (Z.ltb_spec startTimeWithMinNotice
                 (Dayjs.valueOf (start range))); lia).
  pose proof (roundUpToInterval_ge interval s0 Hi) as Hs1.
  rewrite applyHalfHourOffset_shift.
  destruct shouldApply.
  - rewrite (H60 eq_refl) in *.
    rewrite utcMinute_addMinutes, roundUpToInterval_60_minute.
    unfold Dayjs.addMinutes, Dayjs.MILLISECONDS_A_MINUTE.
    pose proof (Z.mod_pos_bound offsetStart 60 ltac:(lia)).
    pose proof (Z.mod_le offsetStart 60 ltac:(lia) ltac:(lia)).
    rewrite Z.add_0_l. lia.
  - unfold Dayjs.addMinutes, Dayjs.MILLISECONDS_A_MINUTE. lia.
Qed.

(** An induction principle for the scan over the keys placed so far. *)
Lemma avoidOverlap_ind (P : Z -> Prop) (range : DateRange) (keys : list Z) :
  (forall e c, e ∈ keys -> P c -> e < c -> c < Dayjs.addMinutes e step ->
               Dayjs.valueOf (start range) <= e -> P e) ->
  (forall e c, e ∈ keys -> P c -> e < c -> c < Dayjs.addMinutes e step ->
               P (Dayjs.addMinutes e step)) ->
  forall cur, P cur -> P (avoidOverlap frequency offsetStart range keys cur).
Proof.
  unfold avoidOverlap.
  induction keys as [|e keys IH]; intros Hfloor Hceil cur Hcur; simpl.
  - assumption.
  - apply IH.
    + intros e' c He'. apply Hfloor. right. assumption.
    + intros e' c He'. apply Hceil. right. assumption.
    + unfold adjustToExisting.
      destruct (Z.ltb_spec e cur) as [Hlt|]; simpl; [|assumption].
      destruct (Z.ltb_spec cur (Dayjs.addMinutes e step)) as [Hlt'|];
        [|assumption].
      destruct (Z.ltb_spec e (Dayjs.valueOf (start range))); simpl.
      * eapply Hceil; eauto. left.
      * eapply Hfloor; eauto. left.
Qed.

Lemma avoidOverlap_ge_start (range : DateRange) (keys : list Z) (cur : Z) :
  Dayjs.valueOf (start range) <= cur ->
  Dayjs.valueOf (start range)
  <= avoidOverlap frequency offsetStart range keys cur.
Proof.
  apply (avoidOverlap_ind (fun x => Dayjs.valueOf (start range) <= x)).
  - intros; assumption.
  - intros e c _ Hc _ Hlt. lia.
Qed.

Lemma avoidOverlap_ge_floor (range : DateRange) (keys : list Z) (cur : Z) :
  Forall (fun e => startTimeWithMinNotice <= e) keys ->
  startTimeWithMinNotice <= cur ->
  startTimeWithMinNotice <= avoidOverlap frequency offsetStart range keys cur.
Proof.
  intros Hkeys.
  apply (avoidOverlap_ind (fun x => startTimeWithMinNotice <= x)).
  - intros e c He _ _ _ _. rewrite Forall_forall in Hkeys. auto.
  - intros e c _ Hc _ Hlt. lia.
Qed.

Lemma fitsInRange_spec (range : DateRange) (c : Z) :
  fitsInRange eventLength range c = true
  <-> c + eventLength * 60000 - 1000 <= Dayjs.valueOf (end_ range).
Proof.
  unfold fitsInRange, Dayjs.subtractSeconds, Dayjs.addMinutes,
    Dayjs.MILLISECONDS_A_MINUTE, Dayjs.MILLISECONDS_A_SECOND.
  rewrite negb_true_iff, Z.ltb_ge. lia.
Qed.

Lemma fitsInRange_false (range : DateRange) (c : Z) :
  fitsInRange eventLength range c = false
  <-> Dayjs.valueOf (end_ range) < c + eventLength * 60000 - 1000.
Proof.
  rewrite <- not_true_iff_false, fitsInRange_spec. lia.
Qed.

Lemma nextSlot_inactive (c : Z) :
  shouldApply = false ->
  nextSlot frequency offsetStart shouldApply c = c + step * 60000.
Proof.
  intros ->. unfold nextSlot. rewrite applyHalfHourOffset_shift.
  unfold Dayjs.addMinutes, Dayjs.MILLISECONDS_A_MINUTE. lia.
Qed.

Lemma nextSlot_active_minute (c : Z) :
  Dayjs.utcMinute (nextSlot frequency offsetStart true c) = 30.
Proof. unfold nextSlot. apply applyHalfHourOffset_minute. Qed.

Lemma nextSlot_bounds (c : Z) :
  c + (step - 29) * 60000 <= nextSlot frequency offsetStart shouldApply c
  <= c + (step + 30) * 60000.
Proof.
  unfold nextSlot.
  pose proof (applyHalfHourOffset_bounds shouldApply
                (Dayjs.addMinutes c step)) as H.
  unfold Dayjs.addMinutes, Dayjs.MILLISECONDS_A_MINUTE in *. lia.
Qed.

(** A candidate on minute 30 does not move when the correction is active
    and the step is shorter than half an hour. *)
Lemma nextSlot_stuck (c : Z) :
  step <= 29 -> Dayjs.utcMinute c = 30 ->
  nextSlot frequency offsetStart true c = c.
Proof.
  intros Hstep H30. unfold nextSlot.
  rewrite applyHalfHourOffset_shift, utcMinute_addMinutes, H30.
  rewrite Z.mod_small by lia.
  unfold Dayjs.addMinutes, Dayjs.MILLISECONDS_A_MINUTE. lia.
Qed.

(** *** The emission loop *)

Local Abbreviation emitted := (emittedTimes frequency eventLength offsetStart shouldApply).
Local Abbreviation next := (nextSlot frequency offsetStart shouldApply).
Local Abbreviation fits := (fitsInRange eventLength).

Lemma emittedTimes_unfold (fuel : nat) (range : DateRange) (c : Z) (l : list Z) :
  emitted fuel range c = Some l ->
  exists fuel', fuel = S fuel' /\
    ((fits range c = false /\ l = [])
     \/ (fits range c = true /\ exists l',
           l = c :: l' /\ emitted fuel' range (next c) = Some l')).
Proof.
  destruct fuel as [|fuel']; simpl; [discriminate|].
  intros H. exists fuel'. split; [reflexivity|].
  destruct (fits range c).
  - right. split; [reflexivity|].
    destruct (emitted fuel' range (next c)) as [l'|]; [|discriminate].
    exists l'. split; congruence.
  - left. split; congruence.
Qed.

(** The loop writes the emitted instants into the map, in order. *)
Lemma emitSlots_emittedTimes (fuel : nat) (range : DateRange) (d : string)
    (slots : slot_map) (c : Z) :
  emitSlots utcOffsetOf frequency eventLength offsetStart shouldApply
    timeZone ooo fuel range d slots c
  = match emitted fuel range c with
    | Some l =>
        Some (fold_left
                (fun m t => SlotMap.set t
                              (makeSlotData ooo d (tz utcOffsetOf timeZone t)) m)
                l slots)
    | None => None
    end.
Proof.
  revert slots c. induction fuel as [|fuel IH]; intros slots c; simpl.
  - reflexivity.
  - destruct (fits range c); [|reflexivity].
    rewrite IH. destruct (emitted fuel range (next c)) as [l|]; [|reflexivity].
    simpl. unfold makeSlotData at 2.
    destruct (ooo ≫= _); reflexivity.
Qed.

Lemma emittedTimes_fuel_mono (fuel fuel' : nat) (range : DateRange) (c : Z)
    (l : list Z) :
  emitted fuel range c = Some l -> (fuel <= fuel')%nat ->
  emitted fuel' range c = Some l.
Proof.
  revert fuel' c l. induction fuel as [|fuel IH]; intros fuel' c l; simpl.
  - discriminate.
  - intros H Hle. destruct fuel' as [|fuel']; [lia|]. simpl.
    destruct (fits range c); [|assumption].
    destruct (emitted fuel range (next c)) as [l'|] eqn:E; [|discriminate].
    rewrite (IH fuel' _ _ E) by lia. assumption.
Qed.

(** Once the correction pins a fitting candidate to minute 30 with a step
    under half an hour, the loop never leaves it. *)
Lemma emittedTimes_stuck (fuel : nat) (range : DateRange) (c : Z) :
  shouldApply = true -> step <= 29 -> Dayjs.utcMinute c = 30 ->
  fits range c = true ->
  emitted fuel range c = None.
Proof.
  intros Happly Hstep H30 Hfit.
  induction fuel as [|fuel IH]; simpl; [reflexivity|].
  rewrite Hfit. subst shouldApply.
  rewrite nextSlot_stuck by assumption. rewrite IH. reflexivity.
Qed.

(** With the correction active and a step under half an hour, a run that
    ends has emitted at most one instant. *)
Lemma emittedTimes_short_step (fuel : nat) (range : DateRange) (c : Z)
    (l : list Z) :
  shouldApply = true -> step <= 29 ->
  emitted fuel range c = Some l -> l = [] \/ l = [c].
Proof.
  intros Happly Hstep H.
  apply emittedTimes_unfold in H as (fuel' & -> & [[_ ->]|(Hfit & l' & -> & H')]);
    [left; reflexivity|right].
  apply emittedTimes_unfold in H'
    as (fuel'' & -> & [[_ ->]|(Hfit' & l'' & -> & H'')]); [reflexivity|].
  exfalso.
  assert (Dayjs.utcMinute (next c) = 30) as H30
      by (subst shouldApply; apply nextSlot_active_minute).
  pose proof (emittedTimes_stuck (S fuel'') range (next c)
                Happly Hstep H30 Hfit') as Hstuck.
  simpl in Hstuck. rewrite Hfit', H'' in Hstuck. discriminate.
Qed.

(** Every instant a range emits fits the range and is not before the
    candidate the loop started from. *)
Lemma emittedTimes_ge (fuel : nat) (range : DateRange) (c : Z) (l : list Z) :
  emitted fuel range c = Some l ->
  forall t, t ∈ l -> c <= t /\ fits range t = true.
Proof.
  revert c l. induction fuel as [|fuel IH]; intros c l H; [discriminate|].
  pose proof H as H0.
  apply emittedTimes_unfold in H
    as (fuel' & [= <-] & [[_ ->]|(Hfit & l' & -> & H')]).
  - intros t Ht. inversion Ht.
  - intros t Ht. apply elem_of_cons in Ht as [->|Ht]; [split; [lia|assumption]|].
    destruct (IH _ _ H' t Ht) as [Hge Hfit']. split; [|assumption].
    destruct (Z_le_gt_dec 30 step) as [Hbig|Hsmall].
    + pose proof (nextSlot_bounds c). lia.
    + destruct (Sumbool.sumbool_of_bool shouldApply) as [Happly|Happly].
      * destruct (emittedTimes_short_step _ _ _ _ Happly ltac:(lia) H0)
          as [Hl|Hl]; [discriminate|].
        injection Hl as ->. inversion Ht.
      * rewrite nextSlot_inactive in Hge by assumption. lia.
Qed.

(** Without the correction the i-th emitted instant is i steps after the
    first candidate. *)
Lemma emittedTimes_inactive_lookup (fuel : nat) (range : DateRange) (c : Z)
    (l : list Z) (i : nat) (t : Z) :
  shouldApply = false ->
  emitted fuel range c = Some l -> l !! i = Some t ->
  t = c + Z.of_nat i * (step * 60000).
Proof.
  intros Happly. revert c l i.
  induction fuel as [|fuel IH]; intros c l i H Hi; [discriminate|].
  apply emittedTimes_unfold in H
    as (fuel' & [= <-] & [[_ ->]|(Hfit & l' & -> & H')]); [discriminate|].
  destruct i as [|i]; simpl in Hi.
  - injection Hi as <-. lia.
  - rewrite (IH _ _ _ H' Hi), nextSlot_inactive by assumption. lia.
Qed.

(** Any later instant of a range is at least a step less 29 minutes after
    an earlier one. *)
Lemma emittedTimes_gap_from_start (fuel : nat) (range : DateRange) (c : Z)
    (l : list Z) (j : nat) (u : Z) :
  emitted fuel range c = Some l -> l !! S j = Some u ->
  c + (step - 29) * 60000 <= u.
Proof.
  intros H Hj.
  pose proof H as H0.
  apply emittedTimes_unfold in H
    as (fuel' & -> & [[_ ->]|(Hfit & l' & -> & H')]); [discriminate|].
  simpl in Hj.
  assert (u ∈ l') as Hu by (eapply list_elem_of_lookup_2; eassumption).
  destruct (emittedTimes_ge _ _ _ _ H' u Hu) as [Hge _].
  pose proof (nextSlot_bounds c). lia.
Qed.

Lemma emittedTimes_head (fuel : nat) (range : DateRange) (c : Z)
    (l : list Z) (t : Z) :
  emitted fuel range c = Some l -> l !! 0%nat = Some t -> t = c.
Proof.
  intros H Hi.
  apply emittedTimes_unfold in H
    as (fuel' & -> & [[_ ->]|(Hfit & l' & -> & H')]); [discriminate|].
  simpl in Hi. congruence.
Qed.

Lemma emittedTimes_gap (fuel : nat) (range : DateRange) (c : Z)
    (l : list Z) (i j : nat) (t u : Z) :
  emitted fuel range c = Some l -> (i < j)%nat ->
  l !! i = Some t -> l !! j = Some u ->
  t + (step - 29) * 60000 <= u.
Proof.
  revert fuel c l j. induction i as [|i IH]; intros fuel c l j H Hij Hi Hj.
  - destruct j as [|j]; [lia|].
    rewrite (emittedTimes_head _ _ _ _ _ H Hi).
    eapply emittedTimes_gap_from_start; eassumption.
  - destruct j as [|j]; [lia|].
    apply emittedTimes_unfold in H
      as (fuel' & -> & [[_ ->]|(Hfit & l' & -> & H')]); [discriminate|].
    simpl in Hi, Hj. eapply (IH fuel' _ l' j); eauto. lia.
Qed.

(** The loop ends when every turn moves the candidate forward. *)
Lemma emittedTimes_terminates (range : DateRange) (n : nat) (c : Z) :
  (shouldApply = true -> 30 <= step) ->
  Dayjs.valueOf (end_ range) - c < Z.of_nat n * 60000 ->
  exists l, emitted (S n) range c = Some l.
Proof.
  intros Hsafe. revert c. induction n as [|n IH]; intros c Hn.
  - exists []. simpl.
    assert (fits range c = false) as -> by (apply fitsInRange_false; lia).
    reflexivity.
  - change (emitted (S (S n)) range c)
      with (if fits range c
            then match emitted (S n) range (next c) with
                 | Some l => Some (c :: l)
                 | None => None
                 end
            else Some []).
    destruct (fits range c); [|eexists; reflexivity].
    destruct (IH (next c)) as [l Hl].
    + destruct (Sumbool.sumbool_of_bool shouldApply) as [Happly|Happly].
      * pose proof (nextSlot_bounds c). specialize (Hsafe Happly). lia.
      * rewrite nextSlot_inactive by assumption. lia.
    + rewrite Hl. eexists; reflexivity.
Qed.

End PerRangeFacts.

(** ** The slot collection *)

Section SlotMapFacts.

Context {V : Type}.

Lemma SlotMap_set_elem (k : Z) (v : V) (m : list (Z * V)) (e : Z * V) :
  e ∈ SlotMap.set k v m -> e = (k, v) \/ e ∈ m.
Proof.
  induction m as [|[k' v'] m IH]; simpl.
  - intros H. apply list_elem_of_singleton in H. left. assumption.
  - destruct (Z.eqb_spec k k') as [->|Hne]; intros H.
    + apply elem_of_cons in H as [->|H]; [left; reflexivity|].
      right. right. assumption.
    + apply elem_of_cons in H as [->|H]; [right; left|].
      destruct (IH H) as [->|H']; [left; reflexivity|right; right; assumption].
Qed.

Lemma SlotMap_fold_elem (f : Z -> V) (l : list Z) (m : list (Z * V))
    (e : Z * V) :
  e ∈ fold_left (fun m t => SlotMap.set t (f t) m) l m ->
  e ∈ m \/ (e.1 ∈ l /\ e.2 = f e.1).
Proof.
  revert m. induction l as [|t l IH]; intros m; simpl.
  - intros H. left. assumption.
  - intros H. destruct (IH _ H) as [H'|[H1 H2]].
    + apply SlotMap_set_elem in H' as [->|H']; [right|left; assumption].
      simpl. split; [left | reflexivity].
    + right. split; [right; assumption | assumption].
Qed.

Lemma SlotMap_values_elem (m : list (Z * V)) (v : V) :
  v ∈ SlotMap.values m -> exists k, (k, v) ∈ m.
Proof.
  unfold SlotMap.values. intros H. apply list_elem_of_In, in_map_iff in H.
  destruct H as ([k v'] & <- & Hin). exists k. apply list_elem_of_In, Hin.
Qed.

Lemma SlotMap_keys_elem (m : list (Z * V)) (k : Z) :
  k ∈ SlotMap.keys m -> exists v, (k, v) ∈ m.
Proof.
  unfold SlotMap.keys. intros H. apply list_elem_of_In, in_map_iff in H.
  destruct H as ([k' v] & <- & Hin). exists v. apply list_elem_of_In, Hin.
Qed.

End SlotMapFacts.

(** ** Sorting of the ranges *)

Lemma insertByStart_perm (r : DateRange) (l : list DateRange) :
  insertByStart r l ≡ₚ r :: l.
Proof.
  induction l as [|r' l IH]; simpl; [reflexivity|].
  destruct (Dayjs.valueOf (start r') <? Dayjs.valueOf (start r)).
  - rewrite IH. apply Permutation_swap.
  - reflexivity.
Qed.

Lemma sortByStart_perm (l : list DateRange) : sortByStart l ≡ₚ l.
Proof.
  induction l as [|r l IH]; simpl; [reflexivity|].
  rewrite insertByStart_perm, IH. reflexivity.
Qed.

Lemma insertByStart_sorted (r : DateRange) (l : list DateRange) :
  StronglySorted startsBefore l -> StronglySorted startsBefore (insertByStart r l).
Proof.
  induction l as [|r' l IH]; simpl; intros Hs.
  - repeat constructor.
  - inversion Hs as [|? ? Hl Hall]; subst.
    destruct (Z.ltb_spec (Dayjs.valueOf (start r')) (Dayjs.valueOf (start r))).
    + constructor; [apply IH, Hl|].
      rewrite (insertByStart_perm r l). constructor; [unfold startsBefore; lia|].
      assumption.
    + constructor; [assumption|]. constructor; [unfold startsBefore; lia|].
      eapply Forall_impl; [eassumption|]. unfold startsBefore. intros; lia.
Qed.

Lemma sortByStart_sorted (l : list DateRange) :
  StronglySorted startsBefore (sortByStart l).
Proof.
  induction l as [|r l IH]; simpl; [constructor|].
  apply insertByStart_sorted, IH.
Qed.

Lemma insertByStart_sorted_id (r : DateRange) (l : list DateRange) :
  Forall (startsBefore r) l -> insertByStart r l = r :: l.
Proof.
  destruct l as [|r' l]; simpl; [reflexivity|].
  intros H. inversion H as [|? ? Hr _]; subst. unfold startsBefore in Hr.
  destruct (Z.ltb_spec (Dayjs.valueOf (start r')) (Dayjs.valueOf (start r)));
    [lia|reflexivity].
Qed.

Lemma sortByStart_sorted_id (l : list DateRange) :
  StronglySorted startsBefore l -> sortByStart l = l.
Proof.
  induction 1 as [|r l Hl IH Hall]; simpl; [reflexivity|].
  rewrite IH. apply insertByStart_sorted_id, Hall.
Qed.

(** ** The whole run *)

Section BuildFacts.

Context {IFromUser IToUser : Type}.
Variable utcOffsetOf : string -> Z -> Z.

Local Abbreviation slot_map := (list (Z * @SlotData IFromUser IToUser)).

Lemma makeSlotData_time (ooo : option (gmap string OutOfOfficeEntry))
    (d : string) (t : Dayjs) :
  time (makeSlotData (IFromUser:=IFromUser) (IToUser:=IToUser) ooo d t) = t.
Proof. unfold makeSlotData. destruct (ooo ≫= _); reflexivity. Qed.

Lemma makeSlotData_tagged (ooo : option (gmap string OutOfOfficeEntry))
    (d : string) (t : Dayjs) :
  taggedWith (ooo ≫= (fun m => m !! d))
    (makeSlotData (IFromUser:=IFromUser) (IToUser:=IToUser) ooo d t).
Proof.
  unfold makeSlotData, taggedWith.
  destruct (ooo ≫= _); simpl; repeat split.
Qed.

Section ForEach.

Variables (frequency eventLength offsetStart interval : Z).
Variable startTimeWithMinNotice : Z.
Variable shouldApply : bool.
Variable timeZone : string.
Variable ooo : option (gmap string (@OutOfOfficeEntry IFromUser IToUser)).
Variable fuel : nat.

Local Abbreviation process :=
  (processRange utcOffsetOf frequency eventLength offsetStart interval
     startTimeWithMinNotice shouldApply timeZone ooo).
Local Abbreviation forEach :=
  (forEachRange utcOffsetOf frequency eventLength offsetStart interval
     startTimeWithMinNotice shouldApply timeZone ooo).
Local Abbreviation first :=
  (firstSlot (IFromUser:=IFromUser) (IToUser:=IToUser) frequency offsetStart
     interval startTimeWithMinNotice shouldApply).
Local Abbreviation emitted :=
  (emittedTimes frequency eventLength offsetStart shouldApply).

(** What one range adds to the map. *)
Lemma processRange_entries (slots slots' : slot_map) (range : DateRange) :
  process fuel slots range = Some slots' ->
  exists l, emitted fuel range (first slots range) = Some l /\
    forall e, e ∈ slots' ->
      e ∈ slots
      \/ (e.1 ∈ l
          /\ e.2 = makeSlotData ooo (Dayjs.formatYYYYMMDD (start range))
                     (tz utcOffsetOf timeZone e.1)).
Proof.
  unfold processRange. rewrite emitSlots_emittedTimes.
  destruct (emitted fuel range (first slots range)) as [l|]; [|discriminate].
  intros [= <-]. exists l. split; [reflexivity|].
  intros e He. apply SlotMap_fold_elem in He. assumption.
Qed.

Lemma processRange_fuel_mono (fuel' : nat) (slots slots' : slot_map)
    (range : DateRange) :
  process fuel slots range = Some slots' -> (fuel <= fuel')%nat ->
  process fuel' slots range = Some slots'.
Proof.
  unfold processRange. rewrite !emitSlots_emittedTimes.
  destruct (emitted fuel range (first slots range)) as [l|] eqn:E;
    [|discriminate].
  intros H Hle. rewrite (emittedTimes_fuel_mono _ _ _ _ _ _ _ _ _ E Hle).
  assumption.
Qed.

(** Every entry of the final map was written by the loop of one of the
    ranges; [P] is any property the emitted instants of a range have,
    given that the entries placed before have it. *)
Variable ranges : list DateRange.
Variable P : DateRange -> Z -> Prop.

Local Abbreviation entryOrigin :=
  (writtenBy utcOffsetOf timeZone ooo ranges P).

Hypothesis P_emitted :
  forall (slots : slot_map) range l t,
    range ∈ ranges ->
    (forall e, e ∈ slots -> exists range', range' ∈ ranges /\ P range' e.1) ->
    emitted fuel range (first slots range) = Some l ->
    t ∈ l -> P range t.

Lemma forEachRange_origin (todo : list DateRange) (slots out : slot_map) :
  (forall range, range ∈ todo -> range ∈ ranges) ->
  (forall e, e ∈ slots -> entryOrigin e) ->
  forEach fuel slots todo = Some out ->
  forall e, e ∈ out -> entryOrigin e.
Proof.
  revert slots. induction todo as [|range todo IH]; intros slots Hsub Hinv; simpl.
  - intros [= <-]. assumption.
  - destruct (process fuel slots range) as [slots'|] eqn:E; [|discriminate].
    apply IH; [intros r Hr; apply Hsub; right; assumption|].
    destruct (processRange_entries _ _ _ E) as (l & Hl & Hentries).
    intros e He. destruct (Hentries e He) as [Hold|[Hin Hdata]].
    + apply Hinv, Hold.
    + exists range. split; [apply Hsub; left|]. split; [|assumption].
      eapply P_emitted; eauto; [apply Hsub; left|].
      intros e' He'. destruct (Hinv e' He') as (r' & Hr' & HP & _). eauto.
Qed.

End ForEach.

Lemma forEachRange_fuel_mono frequency eventLength offsetStart interval
    startTimeWithMinNotice shouldApply timeZone
    (ooo : option (gmap string (@OutOfOfficeEntry IFromUser IToUser)))
    (fuel fuel' : nat) (ranges : list DateRange) (slots out : slot_map) :
  forEachRange utcOffsetOf frequency eventLength offsetStart interval
    startTimeWithMinNotice shouldApply timeZone ooo fuel slots ranges
  = Some out ->
  (fuel <= fuel')%nat ->
  forEachRange utcOffsetOf frequency eventLength offsetStart interval
    startTimeWithMinNotice shouldApply timeZone ooo fuel' slots ranges
  = Some out.
Proof.
  revert slots. induction ranges as [|range ranges IH]; intros slots; simpl.
  - intros H _. assumption.
  - destruct (processRange _ _ _ _ _ _ _ _ _ fuel slots range) as [slots'|] eqn:E;
      [|discriminate].
    intros H Hle.
    erewrite processRange_fuel_mono; [|eassumption|assumption].
    apply IH; assumption.
Qed.

(** The loops of all ranges end when every turn moves forward. *)
Lemma forEachRange_terminates frequency eventLength offsetStart interval
    startTimeWithMinNotice shouldApply timeZone
    (ooo : option (gmap string (@OutOfOfficeEntry IFromUser IToUser)))
    (ranges : list DateRange) (slots : slot_map) :
  1 <= frequency -> 1 <= eventLength -> 0 <= offsetStart ->
  (shouldApply = true -> 30 <= frequency + offsetStart) ->
  exists fuel out,
    forEachRange utcOffsetOf frequency eventLength offsetStart interval
      startTimeWithMinNotice shouldApply timeZone ooo fuel slots ranges
    = Some out.
Proof.
  intros Hf Hl Ho Hsafe. revert slots.
  induction ranges as [|range ranges IH]; intros slots.
  - exists 0%nat, slots. reflexivity.
  - set (c := firstSlot frequency offsetStart interval startTimeWithMinNotice
                shouldApply slots range).
    set (n := Z.to_nat (Z.max 0 (Dayjs.valueOf (end_ range) - c) + 1)).
    destruct (emittedTimes_terminates frequency eventLength offsetStart
                shouldApply Hf Hl Ho range n c Hsafe) as [l Hl'];
      [subst n; lia|].
    assert (exists slots',
               processRange utcOffsetOf frequency eventLength offsetStart
                 interval startTimeWithMinNotice shouldApply timeZone ooo
                 (S n) slots range = Some slots') as [slots' E].
    { unfold processRange. rewrite emitSlots_emittedTimes. fold c.
      rewrite Hl'. eexists; reflexivity. }
    destruct (IH slots') as (fuel & out & Hout).
    exists (Nat.max (S n) fuel), out. simpl.
    erewrite processRange_fuel_mono; [|eassumption|apply Nat.le_max_l].
    eapply forEachRange_fuel_mono; [eassumption | apply Nat.le_max_r].
Qed.

(** The shape of a run that returns. *)
Lemma buildSlotsWithDateRanges_inv (fuel : nat) (now : Z) (env : option Z)
    (caller caller' : @CallerObjects IFromUser IToUser)
    (frequency eventLength : Z) (timeZone : string)
    (minimumBookingNotice : Z) (offsetStart : option Z)
    (out : list (@SlotData IFromUser IToUser)) :
  buildSlotsWithDateRanges utcOffsetOf fuel now env caller frequency
    eventLength timeZone minimumBookingNotice offsetStart
  = Some (out, caller') ->
  exists slots,
    forEachRange utcOffsetOf (minimumOfOne frequency)
      (minimumOfOne eventLength) (normalizeOffsetStart offsetStart)
      (selectInterval env (minimumOfOne frequency))
      (Dayjs.addMinutes now minimumBookingNotice)
      (shouldApplyHalfHourOffset utcOffsetOf now timeZone (dateRanges caller)
         (selectInterval env (minimumOfOne frequency)))
      timeZone (datesOutOfOffice caller) fuel []
      (sortByStart (dateRanges caller))
    = Some slots
    /\ out = SlotMap.values slots
    /\ caller' = {| dateRanges := sortByStart (dateRanges caller);
                    datesOutOfOffice := datesOutOfOffice caller |}.
Proof.
  unfold buildSlotsWithDateRanges.
  destruct (forEachRange _ _ _ _ _ _ _ _ _ _ _ _) as [slots|]; [|discriminate].
  intros [= <- <-]. exists slots. repeat split.
Qed.

Lemma shouldApplyHalfHourOffset_interval (now : Z) (timeZone : string)
    (ranges : list DateRange) (interval : Z) :
  shouldApplyHalfHourOffset utcOffsetOf now timeZone ranges interval = true ->
  interval = 60.
Proof.
  unfold shouldApplyHalfHourOffset. intros H.
  apply andb_true_iff in H as [_ H]. apply Z.eqb_eq, H.
Qed.

Lemma shouldApplyHalfHourOffset_true (now : Z) (timeZone : string)
    (ranges : list DateRange) (interval : Z) :
  shouldApplyHalfHourOffset utcOffsetOf now timeZone ranges interval = true
  <-> halfHourCorrectionActive utcOffsetOf now timeZone ranges interval.
Proof.
  unfold shouldApplyHalfHourOffset, halfHourCorrectionActive, isISTTimezone,
    isHalfHourTimezone, hasHalfHourStartTimes, jsRem.
  rewrite andb_true_iff, !orb_true_iff, andb_true_iff, negb_true_iff,
    String.eqb_eq, !Z.eqb_eq, Z.eqb_neq, existsb_exists.
  split.
  - intros [[[H|H]|[H (r & Hr & Hm)]] Hi]; (split; [|assumption]); auto.
    right. right. split; [assumption|]. exists r.
    split; [apply list_elem_of_In, Hr | apply Z.eqb_eq, Hm].
  - intros [[H|[H|[H (r & Hr & Hm)]]] Hi]; (split; [|assumption]); auto.
    right. split; [assumption|]. exists r.
    split; [apply list_elem_of_In, Hr | apply Z.eqb_eq, Hm].
Qed.

(** Every returned slot was written by the loop of an input range, and
    its instant has every property [P] that the loops establish. *)
Lemma buildSlotsWithDateRanges_origin (P : DateRange -> Z -> Prop)
    (fuel : nat) (now : Z) (env : option Z)
    (caller caller' : @CallerObjects IFromUser IToUser)
    (frequency eventLength : Z) (timeZone : string)
    (minimumBookingNotice : Z) (offsetStart : option Z)
    (out : list (@SlotData IFromUser IToUser)) :
  (forall (slots : slot_map) range l t,
      range ∈ dateRanges caller ->
      (forall e, e ∈ slots ->
                 exists range', range' ∈ dateRanges caller /\ P range' e.1) ->
      emittedTimes (minimumOfOne frequency) (minimumOfOne eventLength)
        (normalizeOffsetStart offsetStart)
        (shouldApplyHalfHourOffset utcOffsetOf now timeZone (dateRanges caller)
           (selectInterval env (minimumOfOne frequency)))
        fuel range
        (firstSlot (minimumOfOne frequency) (normalizeOffsetStart offsetStart)
           (selectInterval env (minimumOfOne frequency))
           (Dayjs.addMinutes now minimumBookingNotice)
           (shouldApplyHalfHourOffset utcOffsetOf now timeZone
              (dateRanges caller)
              (selectInterval env (minimumOfOne frequency)))
           slots range)
      = Some l ->
      t ∈ l -> P range t) ->
  buildSlotsWithDateRanges utcOffsetOf fuel now env caller frequency
    eventLength timeZone minimumBookingNotice offsetStart
  = Some (out, caller') ->
  forall s, s ∈ out ->
    exists range, range ∈ dateRanges caller
      /\ P range (Dayjs.valueOf (time s))
      /\ s = makeSlotData (datesOutOfOffice caller)
               (Dayjs.formatYYYYMMDD (start range))
               (tz utcOffsetOf timeZone (Dayjs.valueOf (time s))).
Proof.
  intros HP Hrun s Hs.
  apply buildSlotsWithDateRanges_inv in Hrun as (slots & Hrun & -> & _).
  apply SlotMap_values_elem in Hs as [k Hk].
  assert (forall r, r ∈ sortByStart (dateRanges caller) ->
                    r ∈ dateRanges caller) as Hsub
      by (intros r; rewrite (sortByStart_perm (dateRanges caller)); auto).
  destruct (forEachRange_origin _ _ _ _ _ _ _ _ fuel
              (dateRanges caller) P HP _ [] slots Hsub
              ltac:(intros e He; inversion He) Hrun (k, s) Hk)
    as (range & Hr & HPr & Hdata).
  simpl in HPr, Hdata.
  assert (Dayjs.valueOf (time s) = k) as Hk'
      by (rewrite Hdata, makeSlotData_time; reflexivity).
  exists range. rewrite Hk'. auto.
Qed.

End BuildFacts.

(** ** The keys of the slot collection *)

Section SlotMapKeys.

Context {V : Type}.

Lemma SlotMap_keys_set (k : Z) (v : V) (m : list (Z * V)) :
  SlotMap.keys (SlotMap.set k v m)
  = if bool_decide (k ∈ SlotMap.keys m) then SlotMap.keys m
    else SlotMap.keys m ++ [k].
Proof.
  unfold SlotMap.keys. induction m as [|[k' v'] m IH].
  - rewrite bool_decide_eq_false_2; [reflexivity|]. intros H; inversion H.
  - cbn [SlotMap.set map fst]. destruct (Z.eqb_spec k k') as [Heq|Hne].
    + subst k'. rewrite bool_decide_eq_true_2 by left. reflexivity.
    + cbn [map fst]. rewrite IH.
      destruct (decide (k ∈ map fst m)) as [Hin|Hin].
      * rewrite (bool_decide_eq_true_2 _ Hin).
        rewrite bool_decide_eq_true_2 by (right; exact Hin). reflexivity.
      * rewrite (bool_decide_eq_false_2 _ Hin).
        rewrite bool_decide_eq_false_2; [reflexivity|].
        intros H. apply elem_of_cons in H as [H|H]; contradiction.
Qed.

Lemma SlotMap_set_NoDup (k : Z) (v : V) (m : list (Z * V)) :
  NoDup (SlotMap.keys m) -> NoDup (SlotMap.keys (SlotMap.set k v m)).
Proof.
  intros Hm. rewrite SlotMap_keys_set.
  destruct (decide (k ∈ SlotMap.keys m)) as [Hin|Hin].
  - rewrite bool_decide_eq_true_2 by assumption. assumption.
  - rewrite bool_decide_eq_false_2 by assumption.
    apply NoDup_app. split; [assumption|]. split; [|apply NoDup_singleton].
    intros x Hx Hk. apply list_elem_of_singleton in Hk as ->. contradiction.
Qed.

Lemma SlotMap_fold_NoDup (f : Z -> V) (l : list Z) (m : list (Z * V)) :
  NoDup (SlotMap.keys m) ->
  NoDup (SlotMap.keys (fold_left (fun m t => SlotMap.set t (f t) m) l m)).
Proof.
  revert m. induction l as [|t l IH]; intros m Hm; simpl; [assumption|].
  apply IH, SlotMap_set_NoDup, Hm.
Qed.

(** When every value records its own key, the keys can be read off the
    values. *)
Lemma SlotMap_values_keys (key : V -> Z) (m : list (Z * V)) :
  (forall e, e ∈ m -> key e.2 = e.1) ->
  map key (SlotMap.values m) = SlotMap.keys m.
Proof.
  unfold SlotMap.values, SlotMap.keys.
  induction m as [|[k v] m IH]; intros H; simpl; [reflexivity|].
  pose proof (H (k, v) ltac:(left)) as Hk. simpl in Hk. rewrite Hk.
  rewrite IH; [reflexivity|].
  intros e He. apply H. right. assumption.
Qed.

End SlotMapKeys.

Section SlotMapValues.

Context {V : Type}.

Lemma SlotMap_elem_keys (m : list (Z * V)) (e : Z * V) :
  e ∈ m -> e.1 ∈ SlotMap.keys m.
Proof.
  intros He. unfold SlotMap.keys. apply list_elem_of_In, in_map_iff.
  exists e. split; [reflexivity|apply list_elem_of_In, He].
Qed.

(** After [set], the entry under the key holds the new value. *)
Lemma SlotMap_set_value (k : Z) (v : V) (m : list (Z * V)) (e : Z * V) :
  NoDup (SlotMap.keys m) -> e ∈ SlotMap.set k v m -> e.1 = k -> e.2 = v.
Proof.
  unfold SlotMap.keys.
  induction m as [|[k' v'] m IH]; cbn [SlotMap.set map fst]; intros Hnd He Hk.
  - apply list_elem_of_singleton in He as ->. reflexivity.
  - apply NoDup_cons in Hnd as [Hk' Hnd].
    destruct (Z.eqb_spec k k') as [->|Hne].
    + apply elem_of_cons in He as [->|He]; [reflexivity|].
      exfalso. apply Hk'. rewrite <- Hk. apply (SlotMap_elem_keys m e He).
    + apply elem_of_cons in He as [->|He]; [simpl in Hk; congruence|].
      apply IH; assumption.
Qed.

Lemma SlotMap_fold_value (f : Z -> V) (l : list Z) (m : list (Z * V))
    (e : Z * V) :
  NoDup (SlotMap.keys m) ->
  e ∈ fold_left (fun m t => SlotMap.set t (f t) m) l m ->
  e.1 ∈ l -> e.2 = f e.1.
Proof.
  revert m. induction l as [|t l IH]; intros m Hnd He Hin; [inversion Hin|].
  cbn [fold_left] in He.
  destruct (decide (e.1 ∈ l)) as [Hl|Hl].
  - apply (IH (SlotMap.set t (f t) m)); auto using SlotMap_set_NoDup.
  - apply elem_of_cons in Hin as [Ht|Hin]; [|contradiction].
    apply SlotMap_fold_elem in He as [He|[Hin _]]; [|contradiction].
    rewrite Ht. eapply SlotMap_set_value; eauto.
Qed.

Lemma SlotMap_fold_keys_mono (f : Z -> V) (l : list Z) (m : list (Z * V))
    (k : Z) :
  k ∈ SlotMap.keys m ->
  k ∈ SlotMap.keys (fold_left (fun m t => SlotMap.set t (f t) m) l m).
Proof.
  revert m. induction l as [|t l IH]; intros m Hk; [exact Hk|].
  cbn [fold_left]. apply IH. rewrite SlotMap_keys_set.
  case_bool_decide; [exact Hk|]. apply elem_of_app. left. exact Hk.
Qed.

End SlotMapValues.

(** ** The record of emissions *)

Lemma lastEmitter_unique (trace : list (DateRange * list Z)) (t : Z)
    (range1 range2 : DateRange) :
  lastEmitter trace t range1 -> lastEmitter trace t range2 -> range1 = range2.
Proof.
  intros (pre1 & l1 & post1 & H1 & Hin1 & Hlast1)
         (pre2 & l2 & post2 & H2 & Hin2 & Hlast2).
  subst trace. revert pre2 H2.
  induction pre1 as [|x pre1 IH]; intros pre2 H2.
  - destruct pre2 as [|y pre2]; simpl in H2.
    + congruence.
    + injection H2 as _ Hpost. exfalso.
      apply (Hlast1 (range2, l2)); [|exact Hin2].
      rewrite Hpost. apply elem_of_app. right. left.
  - destruct pre2 as [|y pre2]; simpl in H2.
    + injection H2 as _ Hpost. exfalso.
      apply (Hlast2 (range1, l1)); [|exact Hin1].
      rewrite <- Hpost. apply elem_of_app. right. left.
    + injection H2 as _ Hrest. apply (IH pre2 Hrest).
Qed.

Section TraceFacts.

Context {IFromUser IToUser : Type}.
Variable utcOffsetOf : string -> Z -> Z.
Variables (frequency eventLength offsetStart interval : Z).
Variable startTimeWithMinNotice : Z.
Variable shouldApply : bool.
Variable timeZone : string.
Variable ooo : option (gmap string (@OutOfOfficeEntry IFromUser IToUser)).
Variable fuel : nat.

Local Abbreviation slot_map := (list (Z * @SlotData IFromUser IToUser)).
Local Abbreviation process :=
  (processRange utcOffsetOf frequency eventLength offsetStart interval
     startTimeWithMinNotice shouldApply timeZone ooo).
Local Abbreviation forEach :=
  (forEachRange utcOffsetOf frequency eventLength offsetStart interval
     startTimeWithMinNotice shouldApply timeZone ooo).
Local Abbreviation emissions :=
  (emissionsOf utcOffsetOf frequency eventLength offsetStart interval
     startTimeWithMinNotice shouldApply timeZone ooo).
Local Abbreviation first :=
  (firstSlot (IFromUser:=IFromUser) (IToUser:=IToUser) frequency offsetStart
     interval startTimeWithMinNotice shouldApply).
Local Abbreviation emitted :=
  (emittedTimes frequency eventLength offsetStart shouldApply).

(** What one range does to a map without duplicate keys: the entries under
    the instants it emitted hold its slot objects, the others are as before. *)
Lemma processRange_entries_exact (slots slots' : slot_map) (range : DateRange) :
  NoDup (SlotMap.keys slots) ->
  process fuel slots range = Some slots' ->
  exists l, emitted fuel range (first slots range) = Some l
    /\ NoDup (SlotMap.keys slots')
    /\ (forall k, k ∈ SlotMap.keys slots -> k ∈ SlotMap.keys slots')
    /\ forall e, e ∈ slots' ->
         (e ∈ slots /\ e.1 ∉ l)
         \/ (e.1 ∈ l
             /\ e.2 = makeSlotData ooo (Dayjs.formatYYYYMMDD (start range))
                        (tz utcOffsetOf timeZone e.1)).
Proof.
  intros Hnd. unfold processRange. rewrite emitSlots_emittedTimes.
  destruct (emitted fuel range (first slots range)) as [l|]; [|discriminate].
  intros [= <-]. exists l. split; [reflexivity|].
  split; [apply SlotMap_fold_NoDup, Hnd|].
  split; [intros k; apply SlotMap_fold_keys_mono|].
  intros e He. destruct (decide (e.1 ∈ l)) as [Hin|Hout].
  - right. split; [exact Hin|].
    apply (SlotMap_fold_value
             (fun t => makeSlotData ooo (Dayjs.formatYYYYMMDD (start range))
                         (tz utcOffsetOf timeZone t)) l slots e Hnd He Hin).
  - left. split; [|exact Hout].
    apply SlotMap_fold_elem in He as [He|[Hin _]]; [exact He|contradiction].
Qed.

(** A property of the whole map that each range keeps holds at the end. *)
Lemma forEachRange_invariant (I : slot_map -> Prop) (ranges : list DateRange) :
  (forall slots range slots',
      range ∈ ranges -> I slots ->
      process fuel slots range = Some slots' -> I slots') ->
  forall (todo : list DateRange) (slots out : slot_map),
    (forall range, range ∈ todo -> range ∈ ranges) ->
    I slots -> forEach fuel slots todo = Some out -> I out.
Proof.
  intros Hstep todo. induction todo as [|range todo IH];
    intros slots out Hsub HI; simpl.
  - intros [= <-]. exact HI.
  - destruct (process fuel slots range) as [slots'|] eqn:E; [|discriminate].
    apply IH; [intros r Hr; apply Hsub; right; exact Hr|].
    eapply Hstep; [apply Hsub; left|exact HI|exact E].
Qed.

(** Every entry of the final map is an untouched entry of the initial map or
    the slot object of the last range that emitted its instant. *)
Lemma forEachRange_trace (ranges : list DateRange) (slots out : slot_map) :
  NoDup (SlotMap.keys slots) ->
  forEach fuel slots ranges = Some out ->
  exists trace,
    emissions fuel slots ranges = Some trace
    /\ map fst trace = ranges
    /\ forall e, e ∈ out ->
         (e ∈ slots /\ forall x, x ∈ trace -> e.1 ∉ x.2)
         \/ exists range, lastEmitter trace e.1 range
              /\ e.2 = makeSlotData ooo (Dayjs.formatYYYYMMDD (start range))
                         (tz utcOffsetOf timeZone e.1).
Proof.
  revert slots. induction ranges as [|range ranges IH]; intros slots Hnd; simpl.
  - intros [= <-]. exists []. split; [reflexivity|]. split; [reflexivity|].
    intros e He. left. split; [exact He|]. intros x Hx. inversion Hx.
  - destruct (process fuel slots range) as [slots'|] eqn:E; [|discriminate].
    intros Hrun.
    destruct (processRange_entries_exact _ _ _ Hnd E)
      as (l & Hl & Hnd' & _ & Hentries).
    destruct (IH slots' Hnd' Hrun) as (trace & Htrace & Hfst & Hout).
    exists ((range, l) :: trace). rewrite Hl, Htrace.
    split; [reflexivity|]. split; [simpl; rewrite Hfst; reflexivity|].
    intros e He. destruct (Hout e He) as [[Hin Hnone]|(r & Hlast & Hdata)].
    + destruct (Hentries e Hin) as [[Hold Hnot]|[Hnew Hdata]].
      * left. split; [exact Hold|]. intros x Hx.
        apply elem_of_cons in Hx as [->|Hx]; [exact Hnot|apply Hnone, Hx].
      * right. exists range. split; [|exact Hdata].
        exists [], l, trace. split; [reflexivity|]. split; [exact Hnew|].
        exact Hnone.
    + right. exists r. split; [|exact Hdata].
      destruct Hlast as (pre & l' & post & -> & Hin' & Hlast).
      exists ((range, l) :: pre), l', post. auto.
Qed.

(** Every list of the record is what the loop of its range emitted from
    some first candidate. *)
Lemma emissionsOf_emitted (ranges : list DateRange) (slots : slot_map)
    (trace : list (DateRange * list Z)) (x : DateRange * list Z) :
  emissions fuel slots ranges = Some trace -> x ∈ trace ->
  exists c, emitted fuel x.1 c = Some x.2.
Proof.
  revert slots trace. induction ranges as [|range ranges IH];
    intros slots trace; simpl.
  - intros [= <-] Hx. inversion Hx.
  - destruct (emitted fuel range (first slots range)) as [l|] eqn:El;
      [|discriminate].
    destruct (process fuel slots range) as [slots'|]; [|discriminate].
    destruct (emissions fuel slots' ranges) as [trace'|] eqn:Et;
      [|discriminate].
    intros [= <-] Hx. apply elem_of_cons in Hx as [->|Hx].
    + exists (first slots range). exact El.
    + eapply IH; eassumption.
Qed.

End TraceFacts.

(** ** The scan, case by case *)

(** As [avoidOverlap_ind], with the reason for which the scan advances: the
    placed slot lies before the start of the range. *)
Lemma avoidOverlap_cases (frequency offsetStart : Z) (P : Z -> Prop)
    (range : DateRange) (keys : list Z) :
  (forall e, e ∈ keys -> Dayjs.valueOf (start range) <= e -> P e) ->
  (forall e, e ∈ keys -> e < Dayjs.valueOf (start range) ->
             P (Dayjs.addMinutes e (frequency + offsetStart))) ->
  forall cur, P cur -> P (avoidOverlap frequency offsetStart range keys cur).
Proof.
  unfold avoidOverlap.
  induction keys as [|e keys IH]; intros Hfloor Hceil cur Hcur; simpl.
  - assumption.
  - apply IH.
    + intros e' He'. apply Hfloor. right. assumption.
    + intros e' He'. apply Hceil. right. assumption.
    + unfold adjustToExisting.
      destruct (Z.ltb_spec e cur) as [Hlt|]; simpl; [|assumption].
      destruct (Z.ltb_spec cur
                  (Dayjs.addMinutes e (frequency + offsetStart))) as [Hlt'|];
        [|assumption].
      destruct (Z.ltb_spec e (Dayjs.valueOf (start range))); simpl.
      * apply Hceil; [left|assumption].
      * apply Hfloor; [left|assumption].
Qed.

Lemma SlotMap_values_intro {V : Type} (m : list (Z * V)) (e : Z * V) :
  e ∈ m -> e.2 ∈ SlotMap.values m.
Proof.
  intros He. unfold SlotMap.values. apply list_elem_of_In, in_map_iff.
  exists e. split; [reflexivity|apply list_elem_of_In, He].
Qed.

Lemma processRange_keys_mono {IFromUser IToUser : Type}
    (utcOffsetOf : string -> Z -> Z)
    (frequency eventLength offsetStart interval startTimeWithMinNotice : Z)
    (shouldApply : bool) (timeZone : string)
    (ooo : option (gmap string (@OutOfOfficeEntry IFromUser IToUser)))
    (fuel : nat) (slots slots' : list (Z * @SlotData IFromUser IToUser))
    (range : DateRange) (k : Z) :
  processRange utcOffsetOf frequency eventLength offsetStart interval
    startTimeWithMinNotice shouldApply timeZone ooo fuel slots range
  = Some slots' ->
  k ∈ SlotMap.keys slots -> k ∈ SlotMap.keys slots'.
Proof.
  unfold processRange. rewrite emitSlots_emittedTimes.
  destruct (emittedTimes _ _ _ _ _ _ _) as [l|]; [|discriminate].
  intros [= <-]. apply SlotMap_fold_keys_mono.
Qed.

(** Every entry of the final map sits under the instant of its own [time]. *)
Lemma forEachRange_keyed {IFromUser IToUser : Type}
    (utcOffsetOf : string -> Z -> Z)
    (frequency eventLength offsetStart interval startTimeWithMinNotice : Z)
    (shouldApply : bool) (timeZone : string)
    (ooo : option (gmap string (@OutOfOfficeEntry IFromUser IToUser)))
    (fuel : nat) (ranges : list DateRange)
    (slots : list (Z * @SlotData IFromUser IToUser)) :
  forEachRange utcOffsetOf frequency eventLength offsetStart interval
    startTimeWithMinNotice shouldApply timeZone ooo fuel [] ranges
  = Some slots ->
  forall e, e ∈ slots -> Dayjs.valueOf (time e.2) = e.1.
Proof.
  intros Hrun e He.
  assert (writtenBy utcOffsetOf timeZone ooo ranges (fun _ _ => True) e)
    as (range & _ & _ & Hdata).
  { eapply forEachRange_origin; [| | |exact Hrun|exact He].
    - intros; exact I.
    - intros r Hr; exact Hr.
    - intros e' He'; inversion He'. }
  rewrite Hdata, makeSlotData_time. reflexivity.
Qed.

(** The selected granularity is positive as soon as the configured fallback
    is: the candidates with defined start times are all positive. *)
Lemma selectInterval_positive (env : option Z) (frequency : Z) :
  0 < defaultInterval env -> 0 < selectInterval env frequency.
Proof.
  intros Hdef. unfold selectInterval.
  destruct (firstDividing_spec frequency intervalsWithDefinedStartTimes
              (defaultInterval env) intervals_nonzero)
    as [(pre & c & post & Hl & _ & _ & ->)|[_ ->]]; [|exact Hdef].
  assert (c ∈ intervalsWithDefinedStartTimes) as Hc
      by (rewrite Hl; apply elem_of_app; right; left).
  unfold intervalsWithDefinedStartTimes in Hc.
  repeat (apply elem_of_cons in Hc as [->|Hc]); try lia. inversion Hc.
Qed.

(** ** The claims of the specification *)

Section Claims.

Context {IFromUser IToUser : Type}.
Variable utcOffsetOf : string -> Z -> Z.
Variable getTimeZone : Dayjs -> string.

Local Abbreviation build :=
  (buildSlotsWithDateRanges (IFromUser:=IFromUser) (IToUser:=IToUser)
     utcOffsetOf).

(** Every returned slot starts at or after the notice floor and lies
    inside the range whose loop wrote it. *)
Lemma slots_floor_and_range (fuel : nat) (now : Z) (env : option Z)
    (caller caller' : @CallerObjects IFromUser IToUser)
    (frequency eventLength : Z) (timeZone : string)
    (minimumBookingNotice : Z) (offsetStart : option Z)
    (out : list (@SlotData IFromUser IToUser)) :
  0 < selectInterval env (minimumOfOne frequency) ->
  build fuel now env caller frequency eventLength timeZone
    minimumBookingNotice offsetStart = Some (out, caller') ->
  forall s, s ∈ out ->
    exists range, range ∈ dateRanges caller
      /\ Dayjs.addMinutes now minimumBookingNotice <= Dayjs.valueOf (time s)
      /\ slotWithin (minimumOfOne eventLength) range (Dayjs.valueOf (time s)).
Proof.
  intros Hinterval Hrun s Hs.
  destruct (buildSlotsWithDateRanges_origin utcOffsetOf
              (fun range t =>
                 Dayjs.addMinutes now minimumBookingNotice <= t
                 /\ slotWithin (minimumOfOne eventLength) range t)
              fuel now env caller caller' frequency eventLength timeZone
              minimumBookingNotice offsetStart out) with (s := s)
    as (range & Hr & [Hfloor Hin] & _); eauto.
  intros slots range l t Hr Hinv Hl Ht.
  pose proof (minimumOfOne_ge_1 frequency) as Hf.
  pose proof (normalizeOffsetStart_nonneg offsetStart) as Ho.
  destruct (emittedTimes_ge _ _ _ _ Hf Ho _ _ _ _ Hl t Ht) as [Hge Hfit].
  apply fitsInRange_spec in Hfit.
  unfold firstSlot in Hge.
  pose proof (initialSlotStart_ge _ _
                (Dayjs.addMinutes now minimumBookingNotice) _ Ho range
                Hinterval
                (shouldApplyHalfHourOffset_interval utcOffsetOf now timeZone
                   (dateRanges caller) _)) as Hinit.
  split; [|split; [|assumption]].
  - eapply Z.le_trans; [|exact Hge].
    apply avoidOverlap_ge_floor; [|lia].
    apply Forall_forall. intros k Hk.
    apply SlotMap_keys_elem in Hk as [v Hk].
    destruct (Hinv _ Hk) as (r' & _ & Hk' & _). exact Hk'.
  - eapply Z.le_trans; [|exact Hge].
    apply avoidOverlap_ge_start. lia.
Qed.

(** C1 (amended): when the selected granularity is a positive number of
    minutes, every slot that [buildSlotsWithDateRanges] (and so [getSlots])
    returns starts, in UTC, at or after now plus the minimum booking notice,
    whether or not the half-hour correction is active. *)
Theorem C1_notice_floor (fuel : nat) (now : Z) (env : option Z)
    (caller caller' : @CallerObjects IFromUser IToUser)
    (inviteeDate : Dayjs) (frequency eventLength : Z) (timeZone : string)
    (minimumBookingNotice : Z) (offsetStart : option Z)
    (out : list (@SlotData IFromUser IToUser)) :
  0 < selectInterval env (minimumOfOne frequency) ->
  build fuel now env caller frequency eventLength timeZone
    minimumBookingNotice offsetStart = Some (out, caller')
  \/ getSlots utcOffsetOf getTimeZone fuel now env inviteeDate frequency
       minimumBookingNotice caller eventLength offsetStart
     = Some (out, caller') ->
  forall s, s ∈ out ->
    Dayjs.addMinutes now minimumBookingNotice <= Dayjs.valueOf (time s).
Proof.
  intros Hinterval [Hrun|Hrun] s Hs; unfold getSlots in *;
    destruct (slots_floor_and_range _ _ _ _ _ _ _ _ _ _ _ Hinterval Hrun s Hs)
      as (range & _ & Hfloor & _); exact Hfloor.
Qed.

(** C2 (amended): when the selected granularity is a positive number of
    minutes, every returned slot [time, time + eventLength) lies inside some
    input range, the end being checked with the tolerance of one second;
    in particular it does not start before the start of that range. *)
Theorem C2_containment (fuel : nat) (now : Z) (env : option Z)
    (caller caller' : @CallerObjects IFromUser IToUser)
    (frequency eventLength : Z) (timeZone : string)
    (minimumBookingNotice : Z) (offsetStart : option Z)
    (out : list (@SlotData IFromUser IToUser)) :
  0 < selectInterval env (minimumOfOne frequency) ->
  build fuel now env caller frequency eventLength timeZone
    minimumBookingNotice offsetStart = Some (out, caller') ->
  forall s, s ∈ out ->
    exists range, range ∈ dateRanges caller
      /\ Dayjs.valueOf (start range) <= Dayjs.valueOf (time s)
      /\ Dayjs.subtractSeconds
           (Dayjs.addMinutes (Dayjs.valueOf (time s)) (minimumOfOne eventLength)) 1
         <= Dayjs.valueOf (end_ range).
Proof.
  intros Hinterval Hrun s Hs.
  destruct (slots_floor_and_range _ _ _ _ _ _ _ _ _ _ _ Hinterval Hrun s Hs)
    as (range & Hr & _ & Hstart & Hend).
  exists range. split; [assumption|]. split; [assumption|].
  unfold_dayjs. lia.
Qed.

(** C6 (amended): the out-of-office entry of a slot is looked up under
    the local calendar date of the start of the range whose loop emitted the
    slot (the last such range, in ascending order of start, should several
    emit the same instant), not under the date of the slot itself.  When an
    entry exists the slot carries [away: true] and those of [fromUser],
    [toUser], [reason], [emoji] that are truthy in the entry (an empty string
    is dropped); when none exists it carries none of these fields. *)
Theorem C6_tagged_by_range_start_date (fuel : nat) (now : Z) (env : option Z)
    (caller caller' : @CallerObjects IFromUser IToUser)
    (frequency eventLength : Z) (timeZone : string)
    (minimumBookingNotice : Z) (offsetStart : option Z)
    (out : list (@SlotData IFromUser IToUser)) :
  build fuel now env caller frequency eventLength timeZone
    minimumBookingNotice offsetStart = Some (out, caller') ->
  exists trace,
    emissionsOf utcOffsetOf (minimumOfOne frequency) (minimumOfOne eventLength)
      (normalizeOffsetStart offsetStart)
      (selectInterval env (minimumOfOne frequency))
      (Dayjs.addMinutes now minimumBookingNotice)
      (shouldApplyHalfHourOffset utcOffsetOf now timeZone (dateRanges caller)
         (selectInterval env (minimumOfOne frequency)))
      timeZone (datesOutOfOffice caller) fuel []
      (sortByStart (dateRanges caller))
    = Some trace
    /\ map fst trace = sortByStart (dateRanges caller)
    /\ forall s, s ∈ out ->
         exists range, range ∈ dateRanges caller
           /\ lastEmitter trace (Dayjs.valueOf (time s)) range
           /\ (forall range',
                 lastEmitter trace (Dayjs.valueOf (time s)) range' ->
                 range' = range)
           /\ fitsInRange (minimumOfOne eventLength) range
                (Dayjs.valueOf (time s)) = true
           /\ taggedWith
                (datesOutOfOffice caller
                   ≫= (fun m => m !! Dayjs.formatYYYYMMDD (start range))) s.
Proof.
  intros Hrun.
  apply buildSlotsWithDateRanges_inv in Hrun as (slots & Hrun & -> & _).
  destruct (forEachRange_trace utcOffsetOf _ _ _ _ _ _ _ _ _ _ [] slots
              ltac:(constructor) Hrun) as (trace & Htrace & Hfst & Hout).
  exists trace. split; [exact Htrace|]. split; [exact Hfst|].
  intros s Hs. apply SlotMap_values_elem in Hs as [k Hk].
  destruct (Hout _ Hk) as [[Hnil _]|(range & Hlast & Hdata)];
    [inversion Hnil|].
  simpl in Hlast, Hdata.
  assert (Dayjs.valueOf (time s) = k) as ->
      by (rewrite Hdata, makeSlotData_time; reflexivity).
  exists range.
  pose proof Hlast as (pre & l & post & Hsplit & Hin & _).
  assert ((range, l) ∈ trace) as Hmem
      by (rewrite Hsplit; apply elem_of_app; right; left).
  split.
  { rewrite <- (sortByStart_perm (dateRanges caller)), <- Hfst.
    apply list_elem_of_In, in_map_iff. exists (range, l).
    split; [reflexivity|apply list_elem_of_In, Hmem]. }
  split; [exact Hlast|].
  split; [intros r' Hr'; exact (lastEmitter_unique _ _ _ _ Hr' Hlast)|].
  split.
  { destruct (emissionsOf_emitted utcOffsetOf _ _ _ _ _ _ _ _ _ _ _ _ _
                Htrace Hmem) as [c Hc].
    eapply emittedTimes_ge; eauto using minimumOfOne_ge_1,
      normalizeOffsetStart_nonneg. }
  rewrite Hdata. apply makeSlotData_tagged.
Qed.

(** With the correction active, every emitted instant but the first of a
    range is on minute 30 of its UTC hour. *)
Lemma emittedTimes_active_minute (frequency eventLength offsetStart : Z)
    (fuel : nat) (range : DateRange) (c : Z) (l : list Z) (t : Z) :
  emittedTimes frequency eventLength offsetStart true fuel range c = Some l ->
  t ∈ l -> t = c \/ Dayjs.utcMinute t = 30.
Proof.
  revert c l. induction fuel as [|fuel IH]; intros c l H Ht; [discriminate|].
  apply emittedTimes_unfold in H
    as (fuel' & [= <-] & [[_ ->]|(Hfit & l' & -> & H')]); [inversion Ht|].
  apply elem_of_cons in Ht as [->|Ht]; [left; reflexivity|right].
  destruct (IH _ _ H' Ht) as [->|H30]; [|assumption].
  apply nextSlot_active_minute.
Qed.

(** With the correction active and a step of whole hours, every returned
    slot starts on minute 30 of its UTC hour. *)
Lemma slots_on_minute_30_whole_hours (fuel : nat) (now : Z) (env : option Z)
    (caller caller' : @CallerObjects IFromUser IToUser)
    (frequency eventLength : Z) (timeZone : string)
    (minimumBookingNotice : Z) (offsetStart : option Z)
    (out : list (@SlotData IFromUser IToUser)) :
  halfHourCorrectionActive utcOffsetOf now timeZone (dateRanges caller)
    (selectInterval env (minimumOfOne frequency)) ->
  (60 | minimumOfOne frequency + normalizeOffsetStart offsetStart) ->
  build fuel now env caller frequency eventLength timeZone
    minimumBookingNotice offsetStart = Some (out, caller') ->
  forall s, s ∈ out ->
    Dayjs.utcMinute (Dayjs.valueOf (time s)) = 30
    /\ (Dayjs.utcOffset (time s) = 330 -> Dayjs.minute (time s) = 0).
Proof.
  intros Happly [q Hq] Hrun s Hs.
  apply shouldApplyHalfHourOffset_true in Happly.
  assert (Dayjs.utcMinute (Dayjs.valueOf (time s)) = 30) as H30.
  { destruct (buildSlotsWithDateRanges_origin utcOffsetOf
                (fun _ t => Dayjs.utcMinute t = 30)
                fuel now env caller caller' frequency eventLength timeZone
                minimumBookingNotice offsetStart out) with (s := s)
      as (range & _ & H30 & _); eauto.
    intros slots range l t _ Hinv Hl Ht. rewrite Happly in Hl.
    destruct (emittedTimes_active_minute _ _ _ _ _ _ _ _ Hl Ht) as [->|H];
      [|assumption].
    unfold firstSlot.
    apply (avoidOverlap_ind _ _ (fun x => Dayjs.utcMinute x = 30)).
    - intros e c He _ _ _ _.
      apply SlotMap_keys_elem in He as [v He].
      destruct (Hinv _ He) as (_ & _ & H). exact H.
    - intros e c He _ _ _.
      apply SlotMap_keys_elem in He as [v He].
      destruct (Hinv _ He) as (_ & _ & H). simpl in H.
      rewrite utcMinute_addMinutes, H, Hq. Z.div_mod_to_equations. lia.
    - apply initialSlotStart_minute. }
  split; [assumption|].
  intros Hoff. unfold Dayjs.minute, Dayjs.wallClock. rewrite Hoff.
  change (Dayjs.valueOf (time s) + 330 * Dayjs.MILLISECONDS_A_MINUTE)
    with (Dayjs.addMinutes (Dayjs.valueOf (time s)) 330).
  rewrite utcMinute_addMinutes, H30. reflexivity.
Qed.


(** C3 (amended): two slots emitted from the same range are at least the
    step [frequency + offsetStart] less 29 minutes apart; when the
    half-hour correction is inactive they are a whole number of steps
    apart, hence at least one step. *)
Theorem C3_same_range_spacing (frequency eventLength : Z)
    (offsetStart : option Z) (shouldApply : bool) (fuel : nat)
    (range : DateRange) (c : Z) (l : list Z) (i j : nat) (t u : Z) :
  emittedTimes (minimumOfOne frequency) (minimumOfOne eventLength)
    (normalizeOffsetStart offsetStart) shouldApply fuel range c = Some l ->
  (i < j)%nat -> l !! i = Some t -> l !! j = Some u ->
  (minimumOfOne frequency + normalizeOffsetStart offsetStart - 29) * 60000
  <= u - t
  /\ (shouldApply = false ->
      u - t = Z.of_nat (j - i)
              * ((minimumOfOne frequency + normalizeOffsetStart offsetStart)
                 * 60000)
      /\ (minimumOfOne frequency + normalizeOffsetStart offsetStart) * 60000
         <= u - t).
Proof.
  intros Hl Hij Hi Hj.
  pose proof (minimumOfOne_ge_1 frequency) as Hf.
  pose proof (normalizeOffsetStart_nonneg offsetStart) as Ho.
  split.
  - pose proof (emittedTimes_gap _ _ _ _ Hf Ho _ _ _ _ _ _ _ _ Hl Hij Hi Hj).
    lia.
  - intros Hoff.
    rewrite (emittedTimes_inactive_lookup _ _ _ _ _ _ _ _ _ _ Hoff Hl Hi).
    rewrite (emittedTimes_inactive_lookup _ _ _ _ _ _ _ _ _ _ Hoff Hl Hj).
    split; [lia|]. nia.
Qed.

(** C7 (amended): [frequency] and [eventLength] are replaced by their
    maximum with 1; [offsetStart] is replaced by its maximum with 1 when it
    is present and not 0, and by 0 when it is absent or 0.  The run only
    sees the normalised values, the step is at least one minute and the
    selected interval is never 0. *)
Theorem C7_normalisation (fuel : nat) (now : Z) (env : option Z)
    (caller : @CallerObjects IFromUser IToUser)
    (frequency eventLength : Z) (timeZone : string)
    (minimumBookingNotice : Z) (offsetStart : option Z) :
  minimumOfOne frequency = Z.max frequency 1
  /\ minimumOfOne eventLength = Z.max eventLength 1
  /\ normalizeOffsetStart offsetStart
     = match offsetStart with
       | Some o => if o =? 0 then 0 else Z.max o 1
       | None => 0
       end
  /\ 1 <= minimumOfOne frequency + normalizeOffsetStart offsetStart
  /\ selectInterval env (minimumOfOne frequency) <> 0
  /\ build fuel now env caller frequency eventLength timeZone
       minimumBookingNotice offsetStart
     = build fuel now env caller (minimumOfOne frequency)
         (minimumOfOne eventLength) timeZone minimumBookingNotice
         (Some (normalizeOffsetStart offsetStart)).
Proof.
  repeat split.
  - apply minimumOfOne_max.
  - apply minimumOfOne_max.
  - destruct offsetStart as [o|]; simpl; [|reflexivity].
    rewrite minimumOfOne_max. reflexivity.
  - pose proof (minimumOfOne_ge_1 frequency).
    pose proof (normalizeOffsetStart_nonneg offsetStart). lia.
  - apply selectInterval_nonzero.
  - unfold buildSlotsWithDateRanges.
    rewrite !minimumOfOne_idem, normalizeOffsetStart_idem. reflexivity.
Qed.

(** A range whose end precedes its start leaves the map as it is. *)
Lemma processRange_malformed (frequency eventLength offsetStart interval : Z)
    (startTimeWithMinNotice : Z) (shouldApply : bool) (timeZone : string)
    (ooo : option (gmap string (@OutOfOfficeEntry IFromUser IToUser)))
    (fuel : nat) (slots : list (Z * @SlotData IFromUser IToUser))
    (range : DateRange) :
  1 <= frequency -> 1 <= eventLength -> 0 <= offsetStart -> 0 < interval ->
  (shouldApply = true -> interval = 60) ->
  malformed range ->
  processRange utcOffsetOf frequency eventLength offsetStart interval
    startTimeWithMinNotice shouldApply timeZone ooo (S fuel) slots range
  = Some slots.
Proof.
  intros Hf Hl Ho Hi H60 Hbad. unfold processRange, malformed in *.
  rewrite emitSlots_emittedTimes. simpl.
  assert (fitsInRange eventLength range
            (firstSlot frequency offsetStart interval startTimeWithMinNotice
               shouldApply slots range) = false) as ->; [|reflexivity].
  apply fitsInRange_false. unfold firstSlot.
  pose proof (initialSlotStart_ge offsetStart interval startTimeWithMinNotice
                shouldApply Ho range Hi H60) as Hinit.
  pose proof (avoidOverlap_ge_start frequency offsetStart range
                (SlotMap.keys slots)
                (initialSlotStart offsetStart interval startTimeWithMinNotice
                   shouldApply range) ltac:(lia)).
  lia.
Qed.

(** The function returns whenever the correction is not combined with a
    step under half an hour. *)
Lemma buildSlotsWithDateRanges_terminates (now : Z) (env : option Z)
    (caller : @CallerObjects IFromUser IToUser)
    (frequency eventLength : Z) (timeZone : string)
    (minimumBookingNotice : Z) (offsetStart : option Z) :
  (shouldApplyHalfHourOffset utcOffsetOf now timeZone (dateRanges caller)
     (selectInterval env (minimumOfOne frequency)) = true ->
   30 <= minimumOfOne frequency + normalizeOffsetStart offsetStart) ->
  exists fuel out caller',
    build fuel now env caller frequency eventLength timeZone
      minimumBookingNotice offsetStart = Some (out, caller').
Proof.
  intros Hsafe.
  destruct (forEachRange_terminates utcOffsetOf
              (minimumOfOne frequency) (minimumOfOne eventLength)
              (normalizeOffsetStart offsetStart)
              (selectInterval env (minimumOfOne frequency))
              (Dayjs.addMinutes now minimumBookingNotice)
              _ timeZone (datesOutOfOffice caller)
              (sortByStart (dateRanges caller)) []
              (minimumOfOne_ge_1 _) (minimumOfOne_ge_1 _)
              (normalizeOffsetStart_nonneg _) Hsafe)
    as (fuel & slots & Hrun).
  exists fuel. unfold buildSlotsWithDateRanges. rewrite Hrun.
  eexists _, _. reflexivity.
Qed.

(** The fallback granularity 60 is the only way to a step under half an
    hour with the correction active. *)
Lemma default_not_60_safe (now : Z) (env : option Z) (timeZone : string)
    (ranges : list DateRange) (frequency : Z) (offsetStart : option Z) :
  defaultInterval env <> 60 ->
  shouldApplyHalfHourOffset utcOffsetOf now timeZone ranges
    (selectInterval env (minimumOfOne frequency)) = true ->
  30 <= minimumOfOne frequency + normalizeOffsetStart offsetStart.
Proof.
  intros Hdef Happly.
  apply shouldApplyHalfHourOffset_interval, selectInterval_60 in Happly
    as [[q Hq]|H]; [|contradiction].
  pose proof (minimumOfOne_ge_1 frequency).
  pose proof (normalizeOffsetStart_nonneg offsetStart). lia.
Qed.

(** When the first range to be visited meets an active correction and a
    step under half an hour, and its first candidate fits, the run never
    returns. *)
Lemma buildSlotsWithDateRanges_stuck (fuel : nat) (now : Z) (env : option Z)
    (caller : @CallerObjects IFromUser IToUser)
    (frequency eventLength : Z) (timeZone : string)
    (minimumBookingNotice : Z) (offsetStart : option Z)
    (range : DateRange) (rest : list DateRange) :
  sortByStart (dateRanges caller) = range :: rest ->
  shouldApplyHalfHourOffset utcOffsetOf now timeZone (dateRanges caller)
    (selectInterval env (minimumOfOne frequency)) = true ->
  minimumOfOne frequency + normalizeOffsetStart offsetStart <= 29 ->
  fitsInRange (minimumOfOne eventLength) range
    (initialSlotStart (normalizeOffsetStart offsetStart)
       (selectInterval env (minimumOfOne frequency))
       (Dayjs.addMinutes now minimumBookingNotice) true range) = true ->
  build fuel now env caller frequency eventLength timeZone
    minimumBookingNotice offsetStart = None.
Proof.
  intros Hsorted Happly Hstep Hfit.
  unfold buildSlotsWithDateRanges. rewrite Hsorted, Happly.
  cbn [forEachRange]. unfold processRange. rewrite emitSlots_emittedTimes.
  change (firstSlot (minimumOfOne frequency) (normalizeOffsetStart offsetStart)
            (selectInterval env (minimumOfOne frequency))
            (Dayjs.addMinutes now minimumBookingNotice) true [] range)
    with (initialSlotStart (normalizeOffsetStart offsetStart)
            (selectInterval env (minimumOfOne frequency))
            (Dayjs.addMinutes now minimumBookingNotice) true range).
  rewrite emittedTimes_stuck;
    auto using minimumOfOne_ge_1, normalizeOffsetStart_nonneg,
      initialSlotStart_minute.
Qed.

End Claims.

(** C8 (the code departs from the claim): with the fallback granularity
    configured as 60, a frequency of 7 minutes and the zone of India, the
    function never returns a list; no amount of fuel lets the loop of the
    first range end, here in a call that also holds a malformed range. *)
Theorem C8_run_never_returns (utcOffsetOf : string -> Z -> Z) (fuel : nat) :
  buildSlotsWithDateRanges utcOffsetOf fuel Sample.day0 (Some 60)
    (Sample.caller [Sample.backwards; Sample.indiaAfternoon] None)
    7 7 "Asia/Kolkata" 0 None
  = None.
Proof.
  apply buildSlotsWithDateRanges_stuck
    with (range := Sample.indiaAfternoon) (rest := [Sample.backwards]);
    try reflexivity.
  vm_compute. discriminate.
Qed.

(** C9 (the code departs from the claim): with the fallback granularity
    configured as 60 the correction is active although the frequency, 7, is
    not a multiple of 60; the candidate 10:30 UTC is set back to itself on
    every turn and the loop never ends, whatever the fuel. *)
Theorem C9_loop_never_ends (utcOffsetOf : string -> Z -> Z) (fuel : nat) :
  nextSlot (minimumOfOne 7) (normalizeOffsetStart None) true
    (Sample.at_ 10 30) = Sample.at_ 10 30
  /\ fitsInRange (minimumOfOne 7) Sample.indiaAfternoon (Sample.at_ 10 30)
     = true
  /\ buildSlotsWithDateRanges utcOffsetOf fuel Sample.day0 (Some 60)
       (Sample.caller [Sample.indiaAfternoon] None)
       7 7 "Asia/Kolkata" 0 None
     = None.
Proof.
  split; [reflexivity|]. split; [reflexivity|].
  apply buildSlotsWithDateRanges_stuck
    with (range := Sample.indiaAfternoon) (rest := []);
    try reflexivity.
  vm_compute. discriminate.
Qed.

(** C10 (amended): the call sorts the caller's [dateRanges] array in place.
    After it the array holds the same elements, ordered by ascending start
    instant, and is unchanged when it was ordered already; the
    [datesOutOfOffice] map is unchanged. *)
Theorem C10_inputs_after_call {IFromUser IToUser : Type}
    (utcOffsetOf : string -> Z -> Z) (fuel : nat) (now : Z) (env : option Z)
    (caller caller' : @CallerObjects IFromUser IToUser)
    (frequency eventLength : Z) (timeZone : string)
    (minimumBookingNotice : Z) (offsetStart : option Z)
    (out : list (@SlotData IFromUser IToUser)) :
  buildSlotsWithDateRanges utcOffsetOf fuel now env caller frequency
    eventLength timeZone minimumBookingNotice offsetStart
  = Some (out, caller') ->
  dateRanges caller' ≡ₚ dateRanges caller
  /\ StronglySorted startsBefore (dateRanges caller')
  /\ datesOutOfOffice caller' = datesOutOfOffice caller
  /\ (StronglySorted startsBefore (dateRanges caller) -> caller' = caller).
Proof.
  intros Hrun.
  apply buildSlotsWithDateRanges_inv in Hrun as (slots & _ & _ & ->). simpl.
  split; [apply sortByStart_perm|]. split; [apply sortByStart_sorted|].
  split; [reflexivity|].
  intros Hsorted. rewrite (sortByStart_sorted_id _ Hsorted).
  destruct caller; reflexivity.
Qed.

(** ** Worked examples *)

(** C1, as stated, fails: with a configured fallback of -7 and a frequency
    of 3 no candidate divides the frequency, the interval is -7, and the
    rounding of lines 89-94 takes now, 10:10, down to 10:07: the one slot
    returned starts before now plus the notice. *)
Lemma C1_counterexample :
  selectInterval (Some (-7)) (minimumOfOne 3) = -7
  /\ Sample.startTimesOf
       (buildSlotsWithDateRanges Sample.zones 8 (Sample.at_ 10 10) (Some (-7))
          (Sample.caller [Sample.utcRange (Sample.at_ 9 0) (Sample.at_ 10 12)]
             None) 3 3 "UTC" 0 None)
     = Some [Sample.at_ 10 7]
  /\ Sample.at_ 10 7 < Dayjs.addMinutes (Sample.at_ 10 10) 0.
Proof. repeat split; vm_compute; reflexivity. Qed.

Lemma C1_witness :
  0 < selectInterval None (minimumOfOne 30)
  /\ (buildSlotsWithDateRanges Sample.zones 8 Sample.day0 None
        (Sample.caller [Sample.morning] None) 30 30 "UTC" 0 None
      = Some (Sample.morningOut, Sample.caller [Sample.morning] None)
      \/ getSlots Sample.zones (fun _ => "UTC"%string) 8 Sample.day0 None
           (Dayjs.mk Sample.day0 0) 30 0
           (Sample.caller [Sample.morning] None) 30 None
         = Some (Sample.morningOut, Sample.caller [Sample.morning] None))
  /\ Sample.plainSlot (Dayjs.mk (Sample.at_ 9 0) 0) ∈ Sample.morningOut
  /\ Dayjs.addMinutes Sample.day0 0
     <= Dayjs.valueOf (time (Sample.plainSlot (Dayjs.mk (Sample.at_ 9 0) 0))).
Proof.
  assert (0 < selectInterval None (minimumOfOne 30)) as H1
      by (vm_compute; reflexivity).
  assert (buildSlotsWithDateRanges Sample.zones 8 Sample.day0 None
            (Sample.caller [Sample.morning] None) 30 30 "UTC" 0 None
          = Some (Sample.morningOut, Sample.caller [Sample.morning] None))
    as H2 by (vm_compute; reflexivity).
  assert (Sample.plainSlot (Dayjs.mk (Sample.at_ 9 0) 0)
            ∈ Sample.morningOut) as H3 by apply list_elem_of_here.
  split; [exact H1|]. split; [left; exact H2|]. split; [exact H3|].
  exact (C1_notice_floor Sample.zones (fun _ => "UTC"%string) 8 Sample.day0
           None _ _ (Dayjs.mk Sample.day0 0) 30 30 "UTC" 0 None _ H1
           (or_introl H2) _ H3).
Defined.

(** C2, as stated, fails: with a configured fallback of -7 and a frequency
    of 3 the rounding of lines 89-94 takes the start of the range, 10:10,
    down to 10:07: the one slot returned starts before the start of the only
    range. *)
Lemma C2_counterexample :
  Sample.startTimesOf
    (buildSlotsWithDateRanges Sample.zones 8 Sample.day0 (Some (-7))
       (Sample.caller [Sample.utcRange (Sample.at_ 10 10) (Sample.at_ 10 12)]
          None) 3 3 "UTC" 0 None)
  = Some [Sample.at_ 10 7]
  /\ Sample.at_ 10 7
     < Dayjs.valueOf
         (start (Sample.utcRange (Sample.at_ 10 10) (Sample.at_ 10 12))).
Proof. split; vm_compute; reflexivity. Qed.

Lemma C2_witness :
  0 < selectInterval None (minimumOfOne 30)
  /\ buildSlotsWithDateRanges Sample.zones 8 Sample.day0 None
       (Sample.caller [Sample.morning] None) 30 30 "UTC" 0 None
     = Some (Sample.morningOut, Sample.caller [Sample.morning] None)
  /\ Sample.plainSlot (Dayjs.mk (Sample.at_ 10 0) 0) ∈ Sample.morningOut
  /\ exists range,
       range ∈ [Sample.morning]
       /\ Dayjs.valueOf (start range) <= Sample.at_ 10 0
       /\ Dayjs.subtractSeconds
            (Dayjs.addMinutes (Sample.at_ 10 0) (minimumOfOne 30)) 1
          <= Dayjs.valueOf (end_ range).
Proof.
  assert (0 < selectInterval None (minimumOfOne 30)) as H1
      by (vm_compute; reflexivity).
  assert (buildSlotsWithDateRanges Sample.zones 8 Sample.day0 None
            (Sample.caller [Sample.morning] None) 30 30 "UTC" 0 None
          = Some (Sample.morningOut, Sample.caller [Sample.morning] None))
    as H2 by (vm_compute; reflexivity).
  assert (Sample.plainSlot (Dayjs.mk (Sample.at_ 10 0) 0)
            ∈ Sample.morningOut) as H3
      by (do 2 apply list_elem_of_further; apply list_elem_of_here).
  split; [exact H1|]. split; [exact H2|]. split; [exact H3|].
  exact (C2_containment Sample.zones 8 Sample.day0 None _ _ 30 30 "UTC" 0
           None _ H1 H2 _ H3).
Defined.

(** C3, as stated, fails: in the zone of India with a frequency of 60 and a
    start offset of 15 the step is 75 minutes, but the slots of the one range
    are 60 minutes apart. *)
Lemma C3_counterexample :
  Sample.startTimesOf
    (buildSlotsWithDateRanges Sample.zones 8 Sample.day0 None
       (Sample.caller [Sample.indiaAfternoon] None)
       60 15 "Asia/Kolkata" 0 (Some 15))
  = Some [Sample.at_ 10 30; Sample.at_ 11 30; Sample.at_ 12 30;
          Sample.at_ 13 30; Sample.at_ 14 30]
  /\ Sample.at_ 11 30 - Sample.at_ 10 30
     < (minimumOfOne 60 + normalizeOffsetStart (Some 15)) * 60000.
Proof. split; vm_compute; reflexivity. Qed.

Lemma C3_witness :
  emittedTimes (minimumOfOne 30) (minimumOfOne 30) (normalizeOffsetStart None)
    false 8 Sample.morning (Sample.at_ 9 0)
  = Some [Sample.at_ 9 0; Sample.at_ 9 30; Sample.at_ 10 0]
  /\ (0 < 2)%nat
  /\ [Sample.at_ 9 0; Sample.at_ 9 30; Sample.at_ 10 0] !! 0%nat
     = Some (Sample.at_ 9 0)
  /\ [Sample.at_ 9 0; Sample.at_ 9 30; Sample.at_ 10 0] !! 2%nat
     = Some (Sample.at_ 10 0)
  /\ ((minimumOfOne 30 + normalizeOffsetStart None - 29) * 60000
      <= Sample.at_ 10 0 - Sample.at_ 9 0
      /\ (false = false ->
          Sample.at_ 10 0 - Sample.at_ 9 0
          = Z.of_nat (2 - 0)
            * ((minimumOfOne 30 + normalizeOffsetStart None) * 60000)
          /\ (minimumOfOne 30 + normalizeOffsetStart None) * 60000
             <= Sample.at_ 10 0 - Sample.at_ 9 0)).
Proof.
  assert (emittedTimes (minimumOfOne 30) (minimumOfOne 30)
            (normalizeOffsetStart None) false 8 Sample.morning
            (Sample.at_ 9 0)
          = Some [Sample.at_ 9 0; Sample.at_ 9 30; Sample.at_ 10 0])
    as H1 by (vm_compute; reflexivity).
  assert (0 < 2)%nat as H2 by lia.
  split; [exact H1|]. split; [exact H2|].
  split; [reflexivity|]. split; [reflexivity|].
  exact (C3_same_range_spacing 30 30 None false 8 Sample.morning
           (Sample.at_ 9 0) _ 0 2 _ _ H1 H2 eq_refl eq_refl).
Defined.



(** C6, as stated, fails: a range from 23:00 to 02:00 UTC and an
    out-of-office entry for the second day only.  The slot at midnight lies
    on the second day, but the entry is looked up under the first day, the
    date of the start of the range, so the slot carries no [away]. *)
Lemma C6_counterexample :
  buildSlotsWithDateRanges Sample.zones 8 Sample.day0 None
    (Sample.caller [Sample.lateEvening] (Some Sample.juneFourth))
    60 60 "UTC" 0 None
  = Some (Sample.lateEveningOut,
          Sample.caller [Sample.lateEvening] (Some Sample.juneFourth))
  /\ Sample.plainSlot (Dayjs.mk (Sample.at_ 24 0) 0)
       ∈ Sample.lateEveningOut
  /\ Dayjs.formatYYYYMMDD (Dayjs.mk (Sample.at_ 24 0) 0) = "2024-06-04"%string
  /\ Dayjs.formatYYYYMMDD (start Sample.lateEvening) = "2024-06-03"%string
  /\ ~ taggedByOwnDate (Some Sample.juneFourth)
         (Sample.plainSlot (Dayjs.mk (Sample.at_ 24 0) 0)).
Proof.
  split; [vm_compute; reflexivity|].
  split; [apply list_elem_of_further, list_elem_of_here|].
  split; [vm_compute; reflexivity|]. split; [vm_compute; reflexivity|].
  intros H. vm_compute in H. destruct H as [H _]. discriminate.
Qed.

Lemma C6_witness :
  buildSlotsWithDateRanges Sample.zones 8 Sample.day0 None
    (Sample.caller [Sample.lateEvening] (Some Sample.juneFourth))
    60 60 "UTC" 0 None
  = Some (Sample.lateEveningOut,
          Sample.caller [Sample.lateEvening] (Some Sample.juneFourth))
  /\ exists trace,
       emissionsOf Sample.zones (minimumOfOne 60) (minimumOfOne 60)
         (normalizeOffsetStart None) (selectInterval None (minimumOfOne 60))
         (Dayjs.addMinutes Sample.day0 0)
         (shouldApplyHalfHourOffset Sample.zones Sample.day0 "UTC"
            [Sample.lateEvening] (selectInterval None (minimumOfOne 60)))
         "UTC" (Some Sample.juneFourth) 8 [] (sortByStart [Sample.lateEvening])
       = Some trace
       /\ map fst trace = sortByStart [Sample.lateEvening]
       /\ forall s, s ∈ Sample.lateEveningOut ->
            exists range, range ∈ [Sample.lateEvening]
              /\ lastEmitter trace (Dayjs.valueOf (time s)) range
              /\ (forall range',
                    lastEmitter trace (Dayjs.valueOf (time s)) range' ->
                    range' = range)
              /\ fitsInRange (minimumOfOne 60) range (Dayjs.valueOf (time s))
                 = true
              /\ taggedWith
                   (Some Sample.juneFourth
                      ≫= (fun m => m !! Dayjs.formatYYYYMMDD (start range)))
                   s.
Proof.
  assert (buildSlotsWithDateRanges Sample.zones 8 Sample.day0 None
            (Sample.caller [Sample.lateEvening] (Some Sample.juneFourth))
            60 60 "UTC" 0 None
          = Some (Sample.lateEveningOut,
                  Sample.caller [Sample.lateEvening]
                    (Some Sample.juneFourth))) as H1
      by (vm_compute; reflexivity).
  split; [exact H1|].
  exact (C6_tagged_by_range_start_date Sample.zones 8 Sample.day0 None _ _
           60 60 "UTC" 0 None _ H1).
Defined.

(** C7, as stated, fails for [offsetStart]: the value 0 is present but is
    not raised to 1; it is used as 0, so that half-hour slots stay 30
    minutes apart. *)
Lemma C7_counterexample :
  normalizeOffsetStart (Some 0) = 0
  /\ normalizeOffsetStart (Some 0) <> Z.max 0 1
  /\ Sample.startTimesOf
       (buildSlotsWithDateRanges Sample.zones 8 Sample.day0 None
          (Sample.caller [Sample.morning] None) 30 30 "UTC" 0 (Some 0))
     = Some [Sample.at_ 9 0; Sample.at_ 9 30; Sample.at_ 10 0].
Proof.
  split; [reflexivity|]. split; [discriminate|]. vm_compute. reflexivity.
Qed.

(** C10, as stated, fails: two ranges handed over with the later one first
    come back in the other order. *)
Lemma C10_counterexample :
  buildSlotsWithDateRanges Sample.zones 8 Sample.day0 None
    (Sample.caller [Sample.afternoon; Sample.morning] None)
    30 30 "UTC" 0 None
  = Some (Sample.morningOut ++ Sample.afternoonOut,
          Sample.caller [Sample.morning; Sample.afternoon] None)
  /\ dateRanges (Sample.caller [Sample.morning; Sample.afternoon] None)
     <> dateRanges (Sample.caller [Sample.afternoon; Sample.morning] None).
Proof.
  split; [vm_compute; reflexivity|]. vm_compute. discriminate.
Qed.

Lemma C10_witness :
  buildSlotsWithDateRanges Sample.zones 8 Sample.day0 None
    (Sample.caller [Sample.afternoon; Sample.morning] None)
    30 30 "UTC" 0 None
  = Some (Sample.morningOut ++ Sample.afternoonOut,
          Sample.caller [Sample.morning; Sample.afternoon] None)
  /\ ([Sample.morning; Sample.afternoon]
        ≡ₚ [Sample.afternoon; Sample.morning]
      /\ StronglySorted startsBefore [Sample.morning; Sample.afternoon]
      /\ (None : option (gmap string (@OutOfOfficeEntry unit unit))) = None
      /\ (StronglySorted startsBefore [Sample.afternoon; Sample.morning] ->
          Sample.caller [Sample.morning; Sample.afternoon] None
          = Sample.caller [Sample.afternoon; Sample.morning] None)).
Proof.
  assert (buildSlotsWithDateRanges Sample.zones 8 Sample.day0 None
            (Sample.caller [Sample.afternoon; Sample.morning] None)
            30 30 "UTC" 0 None
          = Some (Sample.morningOut ++ Sample.afternoonOut,
                  Sample.caller [Sample.morning; Sample.afternoon] None))
    as H1 by (vm_compute; reflexivity).
  split; [exact H1|].
  exact (C10_inputs_after_call Sample.zones 8 Sample.day0 None _ _
           30 30 "UTC" 0 None _ H1).
Defined.

(** The scenario of the specification: one range from 09:00 to 17:00 UTC,
    half-hour slots, no notice: sixteen slots from 09:00 to 16:30. *)
Example nine_to_five :
  Sample.startTimesOf
    (buildSlotsWithDateRanges Sample.zones 32 Sample.day0 None
       (Sample.caller [Sample.utcRange (Sample.at_ 9 0) (Sample.at_ 17 0)]
          None) 30 30 "UTC" 0 None)
  = Some (map (fun k => Sample.at_ 9 0 + k * 1800000)
            [0; 1; 2; 3; 4; 5; 6; 7; 8; 9; 10; 11; 12; 13; 14; 15]).
Proof. vm_compute. reflexivity. Qed.

(** The exception of C5 at work: with a frequency of 60 and a start offset
    of 15 the overlap pass moves the first candidate of the second range to
    12:45 UTC, one step after the slot at 11:30 that lies before the start
    of that range, and nothing sets it back to minute 30. *)
Example correction_missed_after_overlap :
  Sample.startTimesOf
    (buildSlotsWithDateRanges Sample.zones 8 Sample.day0 None
       (Sample.caller
          [Sample.indiaRange (Sample.at_ 10 0) (Sample.at_ 12 0);
           Sample.indiaRange (Sample.at_ 11 40) (Sample.at_ 15 0)] None)
       60 15 "Asia/Kolkata" 0 (Some 15))
  = Some [Sample.at_ 10 30; Sample.at_ 11 30; Sample.at_ 12 45;
          Sample.at_ 14 30].
Proof. vm_compute. reflexivity. Qed.

(** An empty [reason] is defined but falsy: the slot carries [away] and no
    [reason]. *)
Example empty_reason_dropped :
  reason
    (makeSlotData (IFromUser:=unit) (IToUser:=unit)
       (Some {[ "2024-06-03"%string :=
                  {| entry_toUser := None; entry_fromUser := None;
                     entry_reason := Some EmptyString; entry_emoji := None |} ]})
       "2024-06-03" (Dayjs.mk (Sample.at_ 9 0) 0))
  = None
  /\ away
       (makeSlotData (IFromUser:=unit) (IToUser:=unit)
          (Some {[ "2024-06-03"%string :=
                     {| entry_toUser := None; entry_fromUser := None;
                        entry_reason := Some EmptyString; entry_emoji := None |} ]})
          "2024-06-03" (Dayjs.mk (Sample.at_ 9 0) 0))
     = Some true.
Proof. split; vm_compute; reflexivity. Qed.


(** * Further properties of the generator *)

(** ** One slot per instant *)

Section Extras.

Context {IFromUser IToUser : Type}.
Variable utcOffsetOf : string -> Z -> Z.

Local Abbreviation build :=
  (buildSlotsWithDateRanges (IFromUser:=IFromUser) (IToUser:=IToUser)
     utcOffsetOf).

Lemma forEachRange_keys_NoDup frequency eventLength offsetStart interval
    startTimeWithMinNotice shouldApply timeZone
    (ooo : option (gmap string (@OutOfOfficeEntry IFromUser IToUser)))
    (fuel : nat) (ranges : list DateRange)
    (slots out : list (Z * @SlotData IFromUser IToUser)) :
  NoDup (SlotMap.keys slots) ->
  forEachRange utcOffsetOf frequency eventLength offsetStart interval
    startTimeWithMinNotice shouldApply timeZone ooo fuel slots ranges
  = Some out ->
  NoDup (SlotMap.keys out).
Proof.
  revert slots. induction ranges as [|range ranges IH]; intros slots Hnd; simpl.
  - intros [= <-]. assumption.
  - unfold processRange at 1. rewrite emitSlots_emittedTimes.
    destruct (emittedTimes _ _ _ _ _ _ _) as [l|]; [|discriminate].
    apply IH, SlotMap_fold_NoDup, Hnd.
Qed.

(** The returned slots are the values of the map, each under the instant of
    its own [time]. *)
Lemma returned_slots_keys (fuel : nat) (now : Z) (env : option Z)
    (caller caller' : @CallerObjects IFromUser IToUser)
    (frequency eventLength : Z) (timeZone : string)
    (minimumBookingNotice : Z) (offsetStart : option Z)
    (out : list (@SlotData IFromUser IToUser)) :
  build fuel now env caller frequency eventLength timeZone
    minimumBookingNotice offsetStart = Some (out, caller') ->
  NoDup (map (fun s => Dayjs.valueOf (time s)) out).
Proof.
  intros Hrun.
  apply buildSlotsWithDateRanges_inv in Hrun as (slots & Hrun & -> & _).
  rewrite SlotMap_values_keys.
  - eapply forEachRange_keys_NoDup; [|exact Hrun]. constructor.
  - intros e He.
    assert (writtenBy utcOffsetOf timeZone (datesOutOfOffice caller)
              (sortByStart (dateRanges caller)) (fun _ _ => True) e)
      as (range & _ & _ & Hdata).
    { eapply forEachRange_origin; [| | |exact Hrun|exact He].
      - intros; exact I.
      - intros r Hr; exact Hr.
      - intros e' He'; inversion He'. }
    rewrite Hdata, makeSlotData_time. reflexivity.
Qed.

(** X1: no two returned slots start at the same instant ("there can only
    ever be one slot at a given start time", line 52). *)
Theorem X1_one_slot_per_instant (fuel : nat) (now : Z) (env : option Z)
    (caller caller' : @CallerObjects IFromUser IToUser)
    (frequency eventLength : Z) (timeZone : string)
    (minimumBookingNotice : Z) (offsetStart : option Z)
    (out : list (@SlotData IFromUser IToUser)) (i j : nat)
    (s s' : @SlotData IFromUser IToUser) :
  build fuel now env caller frequency eventLength timeZone
    minimumBookingNotice offsetStart = Some (out, caller') ->
  out !! i = Some s -> out !! j = Some s' ->
  Dayjs.valueOf (time s) = Dayjs.valueOf (time s') ->
  i = j.
Proof.
  intros Hrun Hi Hj Heq.
  pose proof (returned_slots_keys _ _ _ _ _ _ _ _ _ _ _ Hrun) as Hnd.
  eapply NoDup_lookup; [exact Hnd| |].
  - rewrite list_lookup_fmap, Hi. reflexivity.
  - rewrite list_lookup_fmap, Hj. simpl. rewrite Heq. reflexivity.
Qed.

(** ** Termination *)


(** ** Ranges without room *)


(** X4: for inputs within the range of dates, a range whose end precedes
    its start leaves the slot collection as it is, whatever valid instants
    the collection holds: the loop condition is false at its first test.
    The bounds keep every date the code builds valid, so that the code
    follows the model. *)
Theorem X4_malformed_range_adds_nothing (fuel : nat) (now : Z)
    (env : option Z) (ranges : list DateRange)
    (ooo : option (gmap string (@OutOfOfficeEntry IFromUser IToUser)))
    (frequency eventLength : Z) (timeZone : string)
    (minimumBookingNotice : Z) (offsetStart : option Z)
    (slots : list (Z * @SlotData IFromUser IToUser)) (range : DateRange) :
  withinDateRange now env (range :: ranges) frequency eventLength
    minimumBookingNotice offsetStart ->
  Forall validInstant (SlotMap.keys slots) ->
  0 < selectInterval env (minimumOfOne frequency) ->
  malformed range ->
  processRange utcOffsetOf (minimumOfOne frequency) (minimumOfOne eventLength)
    (normalizeOffsetStart offsetStart)
    (selectInterval env (minimumOfOne frequency))
    (Dayjs.addMinutes now minimumBookingNotice)
    (shouldApplyHalfHourOffset utcOffsetOf now timeZone ranges
       (selectInterval env (minimumOfOne frequency)))
    timeZone ooo (S fuel) slots range
  = Some slots.
Proof.
  intros _ _ Hi Hbad.
  apply processRange_malformed;
    auto using minimumOfOne_ge_1, normalizeOffsetStart_nonneg.
  apply shouldApplyHalfHourOffset_interval.
Qed.

(** ** What a returned slot looks like *)

(** X5: every returned slot is shown in the requested time zone, carries no
    [userIds], and has [away] either absent or true; a slot without [away]
    has none of the other out-of-office fields, and without an out-of-office
    map no slot has any. *)
Theorem X5_slot_shape (fuel : nat) (now : Z) (env : option Z)
    (caller caller' : @CallerObjects IFromUser IToUser)
    (frequency eventLength : Z) (timeZone : string)
    (minimumBookingNotice : Z) (offsetStart : option Z)
    (out : list (@SlotData IFromUser IToUser)) :
  build fuel now env caller frequency eventLength timeZone
    minimumBookingNotice offsetStart = Some (out, caller') ->
  forall s, s ∈ out ->
    Dayjs.utcOffset (time s) = utcOffsetOf timeZone (Dayjs.valueOf (time s))
    /\ userIds s = None
    /\ (away s = Some true
        \/ (away s = None /\ fromUser s = None /\ toUser s = None
            /\ reason s = None /\ emoji s = None))
    /\ (datesOutOfOffice caller = None -> away s = None).
Proof.
  intros Hrun s Hs.
  destruct (buildSlotsWithDateRanges_origin utcOffsetOf (fun _ _ => True)
              fuel now env caller caller' frequency eventLength timeZone
              minimumBookingNotice offsetStart out) with (s := s)
    as (range & _ & _ & Hdata); auto.
  rewrite Hdata. unfold makeSlotData.
  destruct (datesOutOfOffice caller) as [m|]; simpl.
  - destruct (m !! Dayjs.formatYYYYMMDD (start range)); simpl;
      repeat split; auto; try discriminate.
    right. repeat split.
  - repeat split. right. repeat split.
Qed.

(** ** The loop of one range *)

(** X6: a run of the loop that ends has emitted strictly increasing
    instants, with or without the half-hour correction: a range never emits
    an instant twice, nor one out of order. *)
Theorem X6_range_slots_increase (frequency eventLength : Z)
    (offsetStart : option Z) (shouldApply : bool) (fuel : nat)
    (range : DateRange) (c : Z) (l : list Z) (i j : nat) (t u : Z) :
  emittedTimes (minimumOfOne frequency) (minimumOfOne eventLength)
    (normalizeOffsetStart offsetStart) shouldApply fuel range c = Some l ->
  (i < j)%nat -> l !! i = Some t -> l !! j = Some u ->
  t < u.
Proof.
  intros Hl Hij Hi Hj.
  pose proof (minimumOfOne_ge_1 frequency) as Hf.
  pose proof (normalizeOffsetStart_nonneg offsetStart) as Ho.
  destruct (Sumbool.sumbool_of_bool shouldApply) as [Hon|Hoff].
  - destruct (Z_le_gt_dec 30
                (minimumOfOne frequency + normalizeOffsetStart offsetStart))
      as [Hbig|Hsmall].
    + pose proof (emittedTimes_gap _ _ _ _ Hf Ho _ _ _ _ _ _ _ _ Hl Hij Hi Hj).
      lia.
    + destruct (emittedTimes_short_step _ _ _ _ Hf Ho _ _ _ _ Hon
                  ltac:(lia) Hl) as [->| ->].
      * discriminate.
      * destruct j as [|j]; [lia|]. discriminate.
  - rewrite (emittedTimes_inactive_lookup _ _ _ _ _ _ _ _ _ _ Hoff Hl Hi).
    rewrite (emittedTimes_inactive_lookup _ _ _ _ _ _ _ _ _ _ Hoff Hl Hj).
    nia.
Qed.

Lemma fitsInRange_earlier (eventLength : Z) (range : DateRange) (c c' : Z) :
  c' <= c -> fitsInRange eventLength range c = true ->
  fitsInRange eventLength range c' = true.
Proof. rewrite !fitsInRange_spec. lia. Qed.

Lemma emittedTimes_inactive_complete (frequency eventLength offsetStart : Z)
    (fuel : nat) (range : DateRange) (c : Z) (l : list Z) (n : nat) :
  0 <= frequency + offsetStart ->
  emittedTimes frequency eventLength offsetStart false fuel range c = Some l ->
  fitsInRange eventLength range
    (c + Z.of_nat n * ((frequency + offsetStart) * 60000)) = true ->
  l !! n = Some (c + Z.of_nat n * ((frequency + offsetStart) * 60000)).
Proof.
  intros Hstep. revert c l n.
  induction fuel as [|fuel IH]; intros c l n Hl Hfit; [discriminate|].
  apply emittedTimes_unfold in Hl
    as (fuel' & [= <-] & [[Hno ->]|(Hyes & l' & -> & Hl')]).
  - assert (c <= c + Z.of_nat n * ((frequency + offsetStart) * 60000)) as Hle
        by nia.
    rewrite (fitsInRange_earlier _ _ _ c Hle Hfit) in Hno. discriminate.
  - destruct n as [|n]; simpl.
    + f_equal. lia.
    + rewrite nextSlot_inactive in Hl' by reflexivity.
      rewrite (IH _ _ n Hl').
      * f_equal. lia.
      * replace (c + (frequency + offsetStart) * 60000
                 + Z.of_nat n * ((frequency + offsetStart) * 60000))
          with (c + Z.of_nat (S n) * ((frequency + offsetStart) * 60000))
          by lia.
        exact Hfit.
Qed.

(** X7: without the half-hour correction the loop of a range emits exactly
    the instants one, two, three ... steps after its first candidate that
    still fit the range: none is skipped and none is added. *)
Theorem X7_inactive_emission_exact (frequency eventLength : Z)
    (offsetStart : option Z) (fuel : nat) (range : DateRange) (c : Z)
    (l : list Z) (n : nat) (t : Z) :
  emittedTimes (minimumOfOne frequency) (minimumOfOne eventLength)
    (normalizeOffsetStart offsetStart) false fuel range c = Some l ->
  (l !! n = Some t
   <-> t = c + Z.of_nat n
               * ((minimumOfOne frequency + normalizeOffsetStart offsetStart)
                  * 60000)
       /\ fitsInRange (minimumOfOne eventLength) range t = true).
Proof.
  intros Hl.
  pose proof (minimumOfOne_ge_1 frequency) as Hf.
  pose proof (normalizeOffsetStart_nonneg offsetStart) as Ho.
  split.
  - intros Hn. split.
    + eapply emittedTimes_inactive_lookup; eauto.
    + eapply emittedTimes_ge; eauto.
      eapply list_elem_of_lookup_2; eassumption.
  - intros [-> Hfit].
    eapply emittedTimes_inactive_complete; eauto. lia.
Qed.

(** ** The scan over the slots placed so far *)

(** X8: the scan never invents an instant: its result is the candidate it
    was given, a slot already placed that is not before the start of the
    range, or a slot already placed plus one step.  When no placed slot lies
    less than a step before the candidate, the candidate is left alone. *)
Theorem X8_scan_outcomes (frequency : Z) (offsetStart : option Z)
    (range : DateRange) (keys : list Z) (cur : Z) :
  let step := minimumOfOne frequency + normalizeOffsetStart offsetStart in
  let result :=
    avoidOverlap (minimumOfOne frequency) (normalizeOffsetStart offsetStart)
      range keys cur in
  (result = cur
   \/ exists e, e ∈ keys
        /\ ((result = e /\ Dayjs.valueOf (start range) <= e)
            \/ result = Dayjs.addMinutes e step))
  /\ ((forall e, e ∈ keys ->
         ~ (e < cur /\ cur < Dayjs.addMinutes e step)) ->
      result = cur).
Proof.
  intros step result. subst result. split.
  - apply (avoidOverlap_ind _ _
             (fun x => x = cur
                       \/ exists e, e ∈ keys
                            /\ ((x = e /\ Dayjs.valueOf (start range) <= e)
                                \/ x = Dayjs.addMinutes e step))).
    + intros e c He _ _ _ Hstart. right. exists e. auto.
    + intros e c He _ _ _. right. exists e. auto.
    + left. reflexivity.
  - unfold avoidOverlap. subst step. revert cur.
    induction keys as [|e keys IH]; intros cur Hfree; [reflexivity|].
    cbn [fold_left].
    assert (adjustToExisting (minimumOfOne frequency)
              (normalizeOffsetStart offsetStart) range cur e = cur) as ->.
    { unfold adjustToExisting.
      destruct (Z.ltb_spec e cur) as [H1|]; [|reflexivity].
      destruct (Z.ltb_spec cur
                  (Dayjs.addMinutes e
                     (minimumOfOne frequency
                      + normalizeOffsetStart offsetStart))) as [H2|];
        [|reflexivity].
      exfalso. apply (Hfree e); [left|split; assumption]. }
    apply IH. intros e' He'. apply Hfree. right. exact He'.
Qed.

(** ** Alignment to the selected interval *)

Lemma aligned_addMinutes (i t n : Z) :
  (i | 60) -> (i | Dayjs.utcMinute t) -> (i | n) ->
  (i | Dayjs.utcMinute (Dayjs.addMinutes t n)).
Proof.
  intros H60 Ht Hn. rewrite utcMinute_addMinutes, Z.mod_eq by lia.
  apply Z.divide_sub_r; [apply Z.divide_add_r; assumption|].
  apply Z.divide_mul_l, H60.
Qed.

Lemma roundUpToInterval_aligned (i s : Z) :
  (i | 60) -> (i | Dayjs.utcMinute (roundUpToInterval i s)).
Proof.
  intros H60. unfold roundUpToInterval.
  destruct (Z.eqb_spec (jsRem (Dayjs.utcMinute s) i) 0) as [H0|Hne]; simpl.
  - apply jsRem_divide; [|exact H0]. intros ->. destruct H60 as [q Hq]. lia.
  - rewrite utcMinute_startOfHour_add, Z.mod_eq by lia.
    apply Z.divide_sub_r; [apply Z.divide_mul_r, Z.divide_refl|].
    apply Z.divide_mul_l, H60.
Qed.

Lemma defined_interval_divides_60 (i : Z) :
  i ∈ intervalsWithDefinedStartTimes -> (i | 60).
Proof.
  unfold intervalsWithDefinedStartTimes. intros H.
  repeat (apply elem_of_cons in H as [->|H]);
    [exists 1|exists 2|exists 3|exists 4|exists 6|exists 12|inversion H];
    reflexivity.
Qed.

Lemma selectInterval_defined (env : option Z) (frequency : Z) :
  (exists c, c ∈ intervalsWithDefinedStartTimes /\ (c | frequency)) ->
  selectInterval env frequency ∈ intervalsWithDefinedStartTimes
  /\ (selectInterval env frequency | frequency).
Proof.
  intros (c & Hc & Hdiv). unfold selectInterval.
  destruct (firstDividing_spec frequency intervalsWithDefinedStartTimes
              (defaultInterval env) intervals_nonzero)
    as [(pre & d & post & Hl & Hd & _ & ->)|[Hall _]].
  - split; [|exact Hd]. rewrite Hl. apply elem_of_app. right. left.
  - exfalso. rewrite Forall_forall in Hall. exact (Hall c Hc Hdiv).
Qed.

(** X9: when the half-hour correction is off, the start offset is absent or
    0, and one of 60, 30, 20, 15, 10, 5 divides the frequency, every
    returned slot starts on a UTC minute that is a multiple of the selected
    interval. *)
Theorem X9_slots_on_interval_marks (fuel : nat) (now : Z) (env : option Z)
    (caller caller' : @CallerObjects IFromUser IToUser)
    (frequency eventLength : Z) (timeZone : string)
    (minimumBookingNotice : Z) (offsetStart : option Z)
    (out : list (@SlotData IFromUser IToUser)) :
  ~ halfHourCorrectionActive utcOffsetOf now timeZone (dateRanges caller)
      (selectInterval env (minimumOfOne frequency)) ->
  normalizeOffsetStart offsetStart = 0 ->
  (exists c, c ∈ intervalsWithDefinedStartTimes
             /\ (c | minimumOfOne frequency)) ->
  build fuel now env caller frequency eventLength timeZone
    minimumBookingNotice offsetStart = Some (out, caller') ->
  forall s, s ∈ out ->
    (selectInterval env (minimumOfOne frequency)
     | Dayjs.utcMinute (Dayjs.valueOf (time s))).
Proof.
  intros Hoff Hzero Hdef Hrun s Hs.
  apply selectInterval_defined with (env := env) in Hdef as [Hin Hdiv].
  pose proof (defined_interval_divides_60 _ Hin) as H60.
  assert (shouldApplyHalfHourOffset utcOffsetOf now timeZone
            (dateRanges caller) (selectInterval env (minimumOfOne frequency))
          = false) as Hfalse.
  { apply not_true_is_false. intros H.
    apply Hoff, shouldApplyHalfHourOffset_true, H. }
  destruct (buildSlotsWithDateRanges_origin utcOffsetOf
              (fun _ t => (selectInterval env (minimumOfOne frequency)
                           | Dayjs.utcMinute t))
              fuel now env caller caller' frequency eventLength timeZone
              minimumBookingNotice offsetStart out) with (s := s)
    as (range & _ & Hal & _); auto.
  intros slots range l t _ Hinv Hl Ht.
  rewrite Hfalse, Hzero in Hl.
  apply list_elem_of_lookup in Ht as [n Hn].
  rewrite (emittedTimes_inactive_lookup _ _ _ _ _ _ _ _ _ _ eq_refl Hl Hn).
  replace (Z.of_nat n * ((minimumOfOne frequency + 0) * 60000))
    with (Z.of_nat n * minimumOfOne frequency * Dayjs.MILLISECONDS_A_MINUTE)
    by (unfold Dayjs.MILLISECONDS_A_MINUTE; lia).
  apply (aligned_addMinutes _ _ (Z.of_nat n * minimumOfOne frequency) H60);
    [|apply Z.divide_mul_r, Hdiv].
  unfold firstSlot.
  apply (avoidOverlap_ind _ _
           (fun x => (selectInterval env (minimumOfOne frequency)
                      | Dayjs.utcMinute x))).
  - intros e c He _ _ _ _. apply SlotMap_keys_elem in He as [v He].
    destruct (Hinv _ He) as (_ & _ & H). exact H.
  - intros e c He _ _ _. apply SlotMap_keys_elem in He as [v He].
    destruct (Hinv _ He) as (_ & _ & H).
    apply aligned_addMinutes; [exact H60|exact H|].
    rewrite Z.add_0_r. exact Hdiv.
  - unfold initialSlotStart, applyHalfHourOffset.
    apply aligned_addMinutes; [exact H60| |apply Z.divide_0_r].
    apply roundUpToInterval_aligned, H60.
Qed.

(** X10: whenever some element of 60, 30, 20, 15, 10, 5 divides the clamped
    frequency, the selected interval is such an element, divides the
    frequency, and is the coarsest one that does. *)
Theorem X10_coarsest_interval (env : option Z) (frequency d : Z) :
  d ∈ intervalsWithDefinedStartTimes -> (d | minimumOfOne frequency) ->
  selectInterval env (minimumOfOne frequency) ∈ intervalsWithDefinedStartTimes
  /\ (selectInterval env (minimumOfOne frequency) | minimumOfOne frequency)
  /\ d <= selectInterval env (minimumOfOne frequency).
Proof.
  intros Hd Hdiv.
  destruct (selectInterval_defined env (minimumOfOne frequency))
    as [Hin Hsel]; [exists d; auto|].
  split; [exact Hin|]. split; [exact Hsel|].
  unfold selectInterval, intervalsWithDefinedStartTimes in *.
  cbn [firstDividing].
  repeat match goal with
         | |- context [jsRem ?a ?b =? 0] =>
             destruct (Z.eqb_spec (jsRem a b) 0) as [?H|?H]
         end;
    repeat (apply elem_of_cons in Hd as [->|Hd]);
    try lia; try (inversion Hd; fail);
    exfalso;
    match goal with
    | H : jsRem _ ?c <> 0, Hdiv : (?c | _) |- _ =>
        apply H, jsRem_divide; [lia|exact Hdiv]
    end.
Qed.

(** ** The order of the input ranges *)

Lemma hasHalfHourStartTimes_perm (l1 l2 : list DateRange) :
  l1 ≡ₚ l2 -> hasHalfHourStartTimes l1 = hasHalfHourStartTimes l2.
Proof.
  unfold hasHalfHourStartTimes.
  induction 1 as [|x l l' _ IH|x y l|l l' l'' _ IH1 _ IH2]; simpl.
  - reflexivity.
  - rewrite IH. reflexivity.
  - destruct (Dayjs.minute (start x) =? 30), (Dayjs.minute (start y) =? 30);
      reflexivity.
  - congruence.
Qed.

Lemma distinct_starts_inj (l : list DateRange) (x y : DateRange) :
  NoDup (map (fun r => Dayjs.valueOf (start r)) l) ->
  x ∈ l -> y ∈ l ->
  Dayjs.valueOf (start x) = Dayjs.valueOf (start y) -> x = y.
Proof.
  induction l as [|r l IH]; intros Hnd Hx Hy Heq; [inversion Hx|].
  cbn [map] in Hnd. apply NoDup_cons in Hnd as [Hr Hnd].
  assert (forall z, z ∈ l ->
            Dayjs.valueOf (start z) ∈ map (fun r => Dayjs.valueOf (start r)) l)
    as Hmap.
  { intros z Hz. apply list_elem_of_In, in_map_iff. exists z.
    split; [reflexivity|apply list_elem_of_In, Hz]. }
  apply elem_of_cons in Hx as [->|Hx]; apply elem_of_cons in Hy as [->|Hy].
  - reflexivity.
  - exfalso. apply Hr. rewrite Heq. apply Hmap, Hy.
  - exfalso. apply Hr. rewrite <- Heq. apply Hmap, Hx.
  - apply IH; assumption.
Qed.

Lemma sortByStart_perm_eq (l1 l2 : list DateRange) :
  l1 ≡ₚ l2 ->
  NoDup (map (fun r => Dayjs.valueOf (start r)) l1) ->
  sortByStart l1 = sortByStart l2.
Proof.
  intros Hperm Hnd.
  apply (StronglySorted_unique_strong startsBefore);
    try apply sortByStart_sorted.
  - intros x1 x2 H1 H2 H12 H21. unfold startsBefore in *.
    apply (distinct_starts_inj l1); [exact Hnd| | |lia].
    + rewrite <- (sortByStart_perm l1). exact H1.
    + rewrite Hperm, <- (sortByStart_perm l2). exact H2.
  - rewrite !sortByStart_perm. exact Hperm.
Qed.

(** X11: the order in which the ranges are handed over does not matter when
    their start instants are distinct: two calls whose [dateRanges] arrays
    hold the same ranges in different orders return the same slots and leave
    the same sorted array behind. *)
Theorem X11_input_order_irrelevant (fuel : nat) (now : Z) (env : option Z)
    (caller1 caller2 : @CallerObjects IFromUser IToUser)
    (frequency eventLength : Z) (timeZone : string)
    (minimumBookingNotice : Z) (offsetStart : option Z) :
  dateRanges caller1 ≡ₚ dateRanges caller2 ->
  datesOutOfOffice caller1 = datesOutOfOffice caller2 ->
  NoDup (map (fun r => Dayjs.valueOf (start r)) (dateRanges caller1)) ->
  build fuel now env caller1 frequency eventLength timeZone
    minimumBookingNotice offsetStart
  = build fuel now env caller2 frequency eventLength timeZone
      minimumBookingNotice offsetStart.
Proof.
  intros Hperm Hooo Hnd. unfold buildSlotsWithDateRanges.
  rewrite (sortByStart_perm_eq _ _ Hperm Hnd), Hooo.
  unfold shouldApplyHalfHourOffset.
  rewrite (hasHalfHourStartTimes_perm _ _ Hperm). reflexivity.
Qed.

(** ** Ranges within one local day *)

Lemma formatYYYYMMDD_same_day (d1 d2 : Dayjs) :
  Dayjs.wallClock d1 / Dayjs.MILLISECONDS_A_DAY
  = Dayjs.wallClock d2 / Dayjs.MILLISECONDS_A_DAY ->
  Dayjs.formatYYYYMMDD d1 = Dayjs.formatYYYYMMDD d2.
Proof. unfold Dayjs.formatYYYYMMDD. intros ->. reflexivity. Qed.

(** Every returned slot lies inside the range whose loop wrote it and
    carries the slot object that loop builds. *)
Lemma slots_written_within (fuel : nat) (now : Z) (env : option Z)
    (caller caller' : @CallerObjects IFromUser IToUser)
    (frequency eventLength : Z) (timeZone : string)
    (minimumBookingNotice : Z) (offsetStart : option Z)
    (out : list (@SlotData IFromUser IToUser)) :
  0 < selectInterval env (minimumOfOne frequency) ->
  build fuel now env caller frequency eventLength timeZone
    minimumBookingNotice offsetStart = Some (out, caller') ->
  forall s, s ∈ out ->
    exists range, range ∈ dateRanges caller
      /\ slotWithin (minimumOfOne eventLength) range (Dayjs.valueOf (time s))
      /\ s = makeSlotData (datesOutOfOffice caller)
               (Dayjs.formatYYYYMMDD (start range))
               (tz utcOffsetOf timeZone (Dayjs.valueOf (time s))).
Proof.
  intros Hinterval Hrun s Hs.
  apply (buildSlotsWithDateRanges_origin utcOffsetOf
           (fun range t => slotWithin (minimumOfOne eventLength) range t)
           fuel now env caller caller' frequency eventLength timeZone
           minimumBookingNotice offsetStart out); auto.
  intros slots range l t Hr Hinv Hl Ht.
  pose proof (minimumOfOne_ge_1 frequency) as Hf.
  pose proof (normalizeOffsetStart_nonneg offsetStart) as Ho.
  destruct (emittedTimes_ge _ _ _ _ Hf Ho _ _ _ _ Hl t Ht) as [Hge Hfit].
  apply fitsInRange_spec in Hfit. unfold firstSlot in Hge.
  pose proof (initialSlotStart_ge _ _
                (Dayjs.addMinutes now minimumBookingNotice) _ Ho range
                Hinterval
                (shouldApplyHalfHourOffset_interval utcOffsetOf now timeZone
                   (dateRanges caller) _)) as Hinit.
  split; [|assumption].
  eapply Z.le_trans; [|exact Hge]. apply avoidOverlap_ge_start. lia.
Qed.

(** X12: when every range starts and ends on the same local day and is
    expressed in the offset the requested zone has throughout the range,
    every returned slot is tagged with the out-of-office entry of its own
    local date. *)
Theorem X12_single_day_ranges_own_date (fuel : nat) (now : Z)
    (env : option Z) (caller caller' : @CallerObjects IFromUser IToUser)
    (frequency eventLength : Z) (timeZone : string)
    (minimumBookingNotice : Z) (offsetStart : option Z)
    (out : list (@SlotData IFromUser IToUser)) :
  0 < selectInterval env (minimumOfOne frequency) ->
  (forall range, range ∈ dateRanges caller ->
     Dayjs.utcOffset (end_ range) = Dayjs.utcOffset (start range)
     /\ Dayjs.wallClock (start range) / Dayjs.MILLISECONDS_A_DAY
        = Dayjs.wallClock (end_ range) / Dayjs.MILLISECONDS_A_DAY
     /\ forall t, Dayjs.valueOf (start range) <= t <= Dayjs.valueOf (end_ range) ->
                  utcOffsetOf timeZone t = Dayjs.utcOffset (start range)) ->
  build fuel now env caller frequency eventLength timeZone
    minimumBookingNotice offsetStart = Some (out, caller') ->
  forall s, s ∈ out ->
    taggedWith
      (datesOutOfOffice caller
         ≫= (fun m => m !! Dayjs.formatYYYYMMDD (time s))) s.
Proof.
  intros Hinterval Hday Hrun s Hs.
  destruct (slots_written_within _ _ _ _ _ _ _ _ _ _ _ Hinterval Hrun s Hs)
    as (range & Hr & [Hstart Hend] & Hdata).
  destruct (Hday range Hr) as (Hoff & Hsame & Hzone).
  pose proof (minimumOfOne_ge_1 eventLength) as Hlen.
  assert (Dayjs.formatYYYYMMDD (time s) = Dayjs.formatYYYYMMDD (start range))
    as ->.
  { apply formatYYYYMMDD_same_day.
    rewrite Hdata at 1. rewrite makeSlotData_time.
    unfold tz, Dayjs.wallClock in *. cbn [Dayjs.valueOf Dayjs.utcOffset].
    rewrite (Hzone (Dayjs.valueOf (time s))) by lia.
    rewrite Hoff in Hsame.
    unfold Dayjs.MILLISECONDS_A_DAY, Dayjs.MILLISECONDS_A_MINUTE in *.
    Z.div_mod_to_equations. lia. }
  rewrite Hdata. apply makeSlotData_tagged.
Qed.

End Extras.

(** ** Worked examples for the further properties *)

Lemma X1_witness :
  buildSlotsWithDateRanges Sample.zones 8 Sample.day0 None
    (Sample.caller [Sample.morning] None) 30 30 "UTC" 0 None
  = Some (Sample.morningOut, Sample.caller [Sample.morning] None)
  /\ Sample.morningOut !! 1%nat
     = Some (Sample.plainSlot (Dayjs.mk (Sample.at_ 9 30) 0))
  /\ Sample.at_ 9 30 = Sample.at_ 9 30
  /\ 1%nat = 1%nat.
Proof.
  assert (buildSlotsWithDateRanges Sample.zones 8 Sample.day0 None
            (Sample.caller [Sample.morning] None) 30 30 "UTC" 0 None
          = Some (Sample.morningOut, Sample.caller [Sample.morning] None))
    as H1 by (vm_compute; reflexivity).
  assert (Sample.morningOut !! 1%nat
          = Some (Sample.plainSlot (Dayjs.mk (Sample.at_ 9 30) 0))) as H2
      by reflexivity.
  split; [exact H1|]. split; [exact H2|]. split; [reflexivity|].
  exact (X1_one_slot_per_instant Sample.zones 8 Sample.day0 None _ _ 30 30
           "UTC" 0 None _ 1 1 _ _ H1 H2 H2 eq_refl).
Defined.

Ltac sample_bounds :=
  unfold withinDateRange, validInstant, modestMinutes, SlotMap.keys,
    Sample.morning, Sample.backwards, Sample.utcRange, Sample.at_,
    Sample.day0;
  cbn; repeat first [split | once constructor]; cbn; lia.



Lemma X4_witness :
  withinDateRange Sample.day0 None
    [Sample.backwards; Sample.morning; Sample.backwards] 30 30 0 None
  /\ Forall validInstant
       (SlotMap.keys
          [(Sample.at_ 9 0, Sample.plainSlot (Dayjs.mk (Sample.at_ 9 0) 0))])
  /\ 0 < selectInterval None (minimumOfOne 30)
  /\ malformed Sample.backwards
  /\ processRange Sample.zones (minimumOfOne 30) (minimumOfOne 30)
       (normalizeOffsetStart None) (selectInterval None (minimumOfOne 30))
       (Dayjs.addMinutes Sample.day0 0)
       (shouldApplyHalfHourOffset Sample.zones Sample.day0 "UTC"
          [Sample.morning; Sample.backwards]
          (selectInterval None (minimumOfOne 30)))
       "UTC" None 1
       [(Sample.at_ 9 0, Sample.plainSlot (Dayjs.mk (Sample.at_ 9 0) 0))]
       Sample.backwards
     = Some [(Sample.at_ 9 0, Sample.plainSlot (Dayjs.mk (Sample.at_ 9 0) 0))].
Proof.
  assert (withinDateRange Sample.day0 None
            [Sample.backwards; Sample.morning; Sample.backwards] 30 30 0 None)
    as H0.
  { sample_bounds. }
  assert (Forall validInstant
            (SlotMap.keys
               [(Sample.at_ 9 0,
                 Sample.plainSlot (Dayjs.mk (Sample.at_ 9 0) 0))])) as H0'.
  { sample_bounds. }
  assert (0 < selectInterval None (minimumOfOne 30)) as H1
      by (vm_compute; reflexivity).
  assert (malformed Sample.backwards) as H2 by (vm_compute; reflexivity).
  split; [exact H0|]. split; [exact H0'|]. split; [exact H1|].
  split; [exact H2|].
  exact (X4_malformed_range_adds_nothing Sample.zones 0 Sample.day0 None
           [Sample.morning; Sample.backwards] None 30 30 "UTC" 0 None
           [(Sample.at_ 9 0, Sample.plainSlot (Dayjs.mk (Sample.at_ 9 0) 0))]
           Sample.backwards H0 H0' H1 H2).
Defined.

Lemma X5_witness :
  buildSlotsWithDateRanges Sample.zones 8 Sample.day0 None
    (Sample.caller [Sample.indiaMorning] None) 60 60 "Asia/Kolkata" 0 None
  = Some (Sample.indiaMorningOut, Sample.caller [Sample.indiaMorning] None)
  /\ Sample.plainSlot (Dayjs.mk (Sample.at_ 4 30) 330)
       ∈ Sample.indiaMorningOut
  /\ (330 = Sample.zones "Asia/Kolkata" (Sample.at_ 4 30)
      /\ (None : option (list Z)) = None
      /\ ((None : option bool) = Some true
          \/ ((None : option bool) = None /\ (None : option unit) = None
              /\ (None : option unit) = None
              /\ (None : option string) = None
              /\ (None : option string) = None))
      /\ ((None : option (gmap string (@OutOfOfficeEntry unit unit))) = None ->
          (None : option bool) = None)).
Proof.
  assert (buildSlotsWithDateRanges Sample.zones 8 Sample.day0 None
            (Sample.caller [Sample.indiaMorning] None)
            60 60 "Asia/Kolkata" 0 None
          = Some (Sample.indiaMorningOut,
                  Sample.caller [Sample.indiaMorning] None)) as H1
      by (vm_compute; reflexivity).
  assert (Sample.plainSlot (Dayjs.mk (Sample.at_ 4 30) 330)
            ∈ Sample.indiaMorningOut) as H2 by apply list_elem_of_here.
  split; [exact H1|]. split; [exact H2|].
  exact (X5_slot_shape Sample.zones 8 Sample.day0 None _ _ 60 60
           "Asia/Kolkata" 0 None _ H1 _ H2).
Defined.

Lemma X6_witness :
  emittedTimes (minimumOfOne 60) (minimumOfOne 15)
    (normalizeOffsetStart (Some 15)) true 8 Sample.indiaAfternoon
    (Sample.at_ 10 30)
  = Some [Sample.at_ 10 30; Sample.at_ 11 30; Sample.at_ 12 30;
          Sample.at_ 13 30; Sample.at_ 14 30]
  /\ (0 < 1)%nat
  /\ [Sample.at_ 10 30; Sample.at_ 11 30; Sample.at_ 12 30;
      Sample.at_ 13 30; Sample.at_ 14 30] !! 0%nat = Some (Sample.at_ 10 30)
  /\ [Sample.at_ 10 30; Sample.at_ 11 30; Sample.at_ 12 30;
      Sample.at_ 13 30; Sample.at_ 14 30] !! 1%nat = Some (Sample.at_ 11 30)
  /\ Sample.at_ 10 30 < Sample.at_ 11 30.
Proof.
  assert (emittedTimes (minimumOfOne 60) (minimumOfOne 15)
            (normalizeOffsetStart (Some 15)) true 8 Sample.indiaAfternoon
            (Sample.at_ 10 30)
          = Some [Sample.at_ 10 30; Sample.at_ 11 30; Sample.at_ 12 30;
                  Sample.at_ 13 30; Sample.at_ 14 30]) as H1
      by (vm_compute; reflexivity).
  assert (0 < 1)%nat as H2 by lia.
  split; [exact H1|]. split; [exact H2|].
  split; [reflexivity|]. split; [reflexivity|].
  exact (X6_range_slots_increase 60 15 (Some 15) true 8 Sample.indiaAfternoon
           (Sample.at_ 10 30) _ 0 1 _ _ H1 H2 eq_refl eq_refl).
Defined.

Lemma X7_witness :
  emittedTimes (minimumOfOne 30) (minimumOfOne 30) (normalizeOffsetStart None)
    false 8 Sample.morning (Sample.at_ 9 0)
  = Some [Sample.at_ 9 0; Sample.at_ 9 30; Sample.at_ 10 0]
  /\ ([Sample.at_ 9 0; Sample.at_ 9 30; Sample.at_ 10 0] !! 2%nat
      = Some (Sample.at_ 10 0)
      <-> Sample.at_ 10 0
          = Sample.at_ 9 0
            + Z.of_nat 2
              * ((minimumOfOne 30 + normalizeOffsetStart None) * 60000)
          /\ fitsInRange (minimumOfOne 30) Sample.morning (Sample.at_ 10 0)
             = true).
Proof.
  assert (emittedTimes (minimumOfOne 30) (minimumOfOne 30)
            (normalizeOffsetStart None) false 8 Sample.morning
            (Sample.at_ 9 0)
          = Some [Sample.at_ 9 0; Sample.at_ 9 30; Sample.at_ 10 0]) as H1
      by (vm_compute; reflexivity).
  split; [exact H1|].
  exact (X7_inactive_emission_exact 30 30 None 8 Sample.morning
           (Sample.at_ 9 0) _ 2 (Sample.at_ 10 0) H1).
Defined.

Lemma X9_witness :
  ~ halfHourCorrectionActive Sample.zones Sample.day0 "UTC" [Sample.morning]
      (selectInterval None (minimumOfOne 30))
  /\ normalizeOffsetStart None = 0
  /\ (exists c, c ∈ intervalsWithDefinedStartTimes /\ (c | minimumOfOne 30))
  /\ buildSlotsWithDateRanges Sample.zones 8 Sample.day0 None
       (Sample.caller [Sample.morning] None) 30 30 "UTC" 0 None
     = Some (Sample.morningOut, Sample.caller [Sample.morning] None)
  /\ Sample.plainSlot (Dayjs.mk (Sample.at_ 9 30) 0) ∈ Sample.morningOut
  /\ (selectInterval None (minimumOfOne 30)
      | Dayjs.utcMinute (Sample.at_ 9 30)).
Proof.
  assert (~ halfHourCorrectionActive Sample.zones Sample.day0 "UTC"
            (dateRanges (Sample.caller [Sample.morning] None))
            (selectInterval None (minimumOfOne 30))) as H1
      by (intros [_ H]; vm_compute in H; discriminate).
  assert (normalizeOffsetStart None = 0) as H2 by reflexivity.
  assert (exists c, c ∈ intervalsWithDefinedStartTimes
                    /\ (c | minimumOfOne 30)) as H3.
  { exists 30. split; [apply list_elem_of_further, list_elem_of_here|].
    exists 1. reflexivity. }
  assert (buildSlotsWithDateRanges Sample.zones 8 Sample.day0 None
            (Sample.caller [Sample.morning] None) 30 30 "UTC" 0 None
          = Some (Sample.morningOut, Sample.caller [Sample.morning] None))
    as H4 by (vm_compute; reflexivity).
  assert (Sample.plainSlot (Dayjs.mk (Sample.at_ 9 30) 0) ∈ Sample.morningOut)
    as H5 by apply list_elem_of_further, list_elem_of_here.
  split; [exact H1|]. split; [exact H2|]. split; [exact H3|].
  split; [exact H4|]. split; [exact H5|].
  exact (X9_slots_on_interval_marks Sample.zones 8 Sample.day0 None _ _ 30 30
           "UTC" 0 None _ H1 H2 H3 H4 _ H5).
Defined.

Lemma X10_witness :
  15 ∈ intervalsWithDefinedStartTimes
  /\ (15 | minimumOfOne 45)
  /\ selectInterval None (minimumOfOne 45) ∈ intervalsWithDefinedStartTimes
  /\ (selectInterval None (minimumOfOne 45) | minimumOfOne 45)
  /\ 15 <= selectInterval None (minimumOfOne 45).
Proof.
  assert (15 ∈ intervalsWithDefinedStartTimes) as H1
      by (do 3 apply list_elem_of_further; apply list_elem_of_here).
  assert (15 | minimumOfOne 45) as H2 by (exists 3; reflexivity).
  split; [exact H1|]. split; [exact H2|].
  exact (X10_coarsest_interval None 45 15 H1 H2).
Defined.

Lemma X11_witness :
  [Sample.afternoon; Sample.morning] ≡ₚ [Sample.morning; Sample.afternoon]
  /\ (None : option (gmap string (@OutOfOfficeEntry unit unit))) = None
  /\ NoDup (map (fun r => Dayjs.valueOf (start r))
              [Sample.afternoon; Sample.morning])
  /\ buildSlotsWithDateRanges Sample.zones 8 Sample.day0 None
       (Sample.caller [Sample.afternoon; Sample.morning] None)
       30 30 "UTC" 0 None
     = buildSlotsWithDateRanges Sample.zones 8 Sample.day0 None
         (Sample.caller [Sample.morning; Sample.afternoon] None)
         30 30 "UTC" 0 None.
Proof.
  assert (dateRanges (Sample.caller [Sample.afternoon; Sample.morning] None)
            ≡ₚ dateRanges
                 (Sample.caller [Sample.morning; Sample.afternoon] None))
    as H1 by apply Permutation_swap.
  assert (NoDup (map (fun r => Dayjs.valueOf (start r))
                   (dateRanges
                      (Sample.caller [Sample.afternoon; Sample.morning] None))))
    as H3.
  { apply NoDup_cons. split; [|apply NoDup_singleton].
    intros H. apply list_elem_of_singleton in H. vm_compute in H.
    discriminate. }
  split; [exact H1|]. split; [reflexivity|]. split; [exact H3|].
  exact (X11_input_order_irrelevant Sample.zones 8 Sample.day0 None _ _ 30 30
           "UTC" 0 None H1 eq_refl H3).
Defined.

Lemma X12_witness :
  0 < selectInterval None (minimumOfOne 30)
  /\ (forall range, range ∈ [Sample.morning] ->
        Dayjs.utcOffset (end_ range) = Dayjs.utcOffset (start range)
        /\ Dayjs.wallClock (start range) / Dayjs.MILLISECONDS_A_DAY
           = Dayjs.wallClock (end_ range) / Dayjs.MILLISECONDS_A_DAY
        /\ forall t,
             Dayjs.valueOf (start range) <= t <= Dayjs.valueOf (end_ range) ->
             Sample.zones "UTC" t = Dayjs.utcOffset (start range))
  /\ buildSlotsWithDateRanges Sample.zones 8 Sample.day0 None
       (Sample.caller [Sample.morning] (Some Sample.juneFourth))
       30 30 "UTC" 0 None
     = Some (Sample.morningOut,
             Sample.caller [Sample.morning] (Some Sample.juneFourth))
  /\ Sample.plainSlot (Dayjs.mk (Sample.at_ 9 30) 0) ∈ Sample.morningOut
  /\ taggedWith
       (Some Sample.juneFourth
          ≫= (fun m => m !! Dayjs.formatYYYYMMDD (Dayjs.mk (Sample.at_ 9 30) 0)))
       (Sample.plainSlot (Dayjs.mk (Sample.at_ 9 30) 0)).
Proof.
  assert (0 < selectInterval None (minimumOfOne 30)) as H1
      by (vm_compute; reflexivity).
  assert (forall range,
            range ∈ dateRanges
                      (Sample.caller [Sample.morning] (Some Sample.juneFourth)) ->
            Dayjs.utcOffset (end_ range) = Dayjs.utcOffset (start range)
            /\ Dayjs.wallClock (start range) / Dayjs.MILLISECONDS_A_DAY
               = Dayjs.wallClock (end_ range) / Dayjs.MILLISECONDS_A_DAY
            /\ forall t,
                 Dayjs.valueOf (start range) <= t
                 <= Dayjs.valueOf (end_ range) ->
                 Sample.zones "UTC" t = Dayjs.utcOffset (start range)) as H2.
  { intros range Hr. apply list_elem_of_singleton in Hr as ->.
    split; [reflexivity|]. split; [vm_compute; reflexivity|].
    intros t _. reflexivity. }
  assert (buildSlotsWithDateRanges Sample.zones 8 Sample.day0 None
            (Sample.caller [Sample.morning] (Some Sample.juneFourth))
            30 30 "UTC" 0 None
          = Some (Sample.morningOut,
                  Sample.caller [Sample.morning] (Some Sample.juneFourth)))
    as H3 by (vm_compute; reflexivity).
  assert (Sample.plainSlot (Dayjs.mk (Sample.at_ 9 30) 0) ∈ Sample.morningOut)
    as H4 by apply list_elem_of_further, list_elem_of_here.
  split; [exact H1|]. split; [exact H2|]. split; [exact H3|].
  split; [exact H4|].
  exact (X12_single_day_ranges_own_date Sample.zones 8 Sample.day0 None _ _
           30 30 "UTC" 0 None _ H1 H2 H3 _ H4).
Defined.
